(** * create_template.py: the Proxmox template orchestrator

    A shallow embedding of [src/create_template.py].  The script builds a
    fixed table of seven [(description, command)] steps, runs every non-empty
    command through [subprocess.check_call] under a [tqdm] progress bar, and
    turns the three [except] clauses into one [logging.error] line.  [main]
    validates the parsed arguments before calling [create_template].

    Effects are modelled by a small state-and-exception monad over a trace of
    observable events (log records, invocations, progress updates).  The
    outside world (the [qm] tool and the file system) is an oracle of type
    [World].  Module [Checked] keeps the two calls that can raise outside any
    handler: the integer conversions that build the table, and
    [os.getcwd()]. *)

From Stdlib Require Import ZArith List String Ascii Bool Lia DecimalString.
Import ListNotations.
Local Open Scope string_scope.
Local Open Scope Z_scope.

(* ================================================================= *)
(** ** Python primitives used by the script *)

Module Py.

(** What [str(n)] returns for a Python [int]; [Checked.str] adds the case
    where it raises. *)
Definition str (n : Z) : string := NilZero.string_of_int (Z.to_int n).

(** [sub in s] for two [str] values. *)
Fixpoint contains (sub s : string) : bool :=
  if String.prefix sub s then true
  else match s with
       | EmptyString => false
       | String _ s' => contains sub s'
       end.

(** Truth value of an [int], a [str] and a [list] in a condition. *)
Definition truthy_int (n : Z) : bool := negb (n =? 0).

Definition truthy_str (s : string) : bool :=
  match s with EmptyString => false | String _ _ => true end.

Definition truthy_list {A : Type} (l : list A) : bool :=
  match l with [] => false | _ :: _ => true end.

(** [s.startswith('/')] and [s.endswith('/')]. *)
Definition startswith_sep (s : string) : bool := String.prefix "/" s.

Fixpoint endswith_sep (s : string) : bool :=
  match s with
  | EmptyString => false
  | String c EmptyString => Ascii.eqb c "/"
  | String _ s' => endswith_sep s'
  end.

(** [posixpath.isabs], [posixpath.join] (two arguments) and
    [posixpath.basename]. *)
Definition isabs (s : string) : bool := startswith_sep s.

Definition join (a b : string) : string :=
  if startswith_sep b then b
  else if negb (truthy_str a) || endswith_sep a then a ++ b
  else a ++ "/" ++ b.

Fixpoint basename_from (acc p : string) : string :=
  match p with
  | EmptyString => acc
  | String c p' =>
      if Ascii.eqb c "/" then basename_from "" p'
      else basename_from (acc ++ String c "") p'
  end.

Definition basename (p : string) : string := basename_from "" p.

End Py.

(* ================================================================= *)
(** ** The step table (lines 38-60) *)

Definition step : Type := string * list string.

Definition steps (vm_id : Z) (vm_name : string) (vm_vlan mem cores : Z)
    (cinit iso_file ostype : string) : list step :=
  [ ("Creating VM",
      ["qm"; "create"; Py.str vm_id; "--name"; vm_name; "--ostype"; ostype;
       "--tablet"; "0"]);
    ("Configuring Network",
      ["qm"; "set"; Py.str vm_id; "--net0";
       "virtio,bridge=vmbr0"
         ++ (if Py.truthy_int vm_vlan then ",tag=" ++ Py.str vm_vlan else "");
       "--memory"; Py.str mem; "--cores"; Py.str cores; "--cpu"; "host"]);
    ("Setting ISO",
      ["qm"; "set"; Py.str vm_id; "--scsi0";
       "local-lvm:0,import-from=" ++ iso_file ++ ",discard=on,ssd=1"]);
    ("Configuring Boot",
      ["qm"; "set"; Py.str vm_id; "--boot"; "order=scsi0"; "--scsihw";
       "virtio-scsi-single"; "--agent"; "enabled=1,fstrim_cloned_disks=1"]);
    ("Configuring Cloud-Init",
      ["qm"; "set"; Py.str vm_id; "--ide2"; "local-lvm:cloudinit";
       "--ipconfig0"; "ip=dhcp"]);
    ("Setting Cloud-Init Customization",
      if Py.truthy_str cinit
      then ["qm"; "set"; Py.str vm_id; "--cicustom";
            "user=local:snippets/" ++ cinit]
      else []);
    ("Creating Template", ["qm"; "template"; Py.str vm_id]) ].

(* ================================================================= *)
(** ** Exceptions *)

(** The classes of the exceptions [subprocess.check_call] can raise, all of
    them below [Exception].  Signals delivered to the interpreter itself
    (a keyboard interrupt) are not terminations of the invocation and are not
    modelled. *)
Inductive exc_class : Type :=
| Exception
| SubprocessError
| CalledProcessError
| OSError
| FileNotFoundError
| PermissionError
| NotADirectoryError
| ValueError
| TypeError
| MemoryError.

Definition exc_class_eqb (c d : exc_class) : bool :=
  match c, d with
  | Exception, Exception
  | SubprocessError, SubprocessError
  | CalledProcessError, CalledProcessError
  | OSError, OSError
  | FileNotFoundError, FileNotFoundError
  | PermissionError, PermissionError
  | NotADirectoryError, NotADirectoryError
  | ValueError, ValueError
  | TypeError, TypeError
  | MemoryError, MemoryError => true
  | _, _ => false
  end.

(** The method resolution order of each class, cut at [Exception]. *)
Definition mro (c : exc_class) : list exc_class :=
  match c with
  | Exception => [Exception]
  | SubprocessError => [SubprocessError; Exception]
  | CalledProcessError => [CalledProcessError; SubprocessError; Exception]
  | OSError => [OSError; Exception]
  | FileNotFoundError => [FileNotFoundError; OSError; Exception]
  | PermissionError => [PermissionError; OSError; Exception]
  | NotADirectoryError => [NotADirectoryError; OSError; Exception]
  | ValueError => [ValueError; Exception]
  | TypeError => [TypeError; Exception]
  | MemoryError => [MemoryError; Exception]
  end.

Definition issubclass (c d : exc_class) : bool := existsb (exc_class_eqb d) (mro c).

(** An exception object: [check_call] raises [CalledProcessError(retcode, cmd)]
    itself; anything else comes out of the launch of the child process. *)
Inductive exn : Type :=
| RaiseCalledProcessError (returncode : Z) (cmd : list string)
| RaiseOther (c : exc_class) (detail : string).

Definition type_of (e : exn) : exc_class :=
  match e with
  | RaiseCalledProcessError _ _ => CalledProcessError
  | RaiseOther c _ => c
  end.

Definition isinstance (e : exn) (c : exc_class) : bool := issubclass (type_of e) c.

(* ================================================================= *)
(** ** Observable events, machine state and the outside world *)

Inductive level : Type := INFO | ERROR.

Inductive log_arg : Type :=
| ArgInt (n : Z)
| ArgExc (e : exn).

(** One observable action of the script, in program order. *)
Inductive event : Type :=
| EvLog (lvl : level) (msg : string) (args : list log_arg)
| EvInvoke (cmd : list string)
| EvUpdate (k : nat).

(** The [tqdm] object: [total] and the counter [n]. *)
Record tqdm : Type := { total : nat; n : nat }.

Record state : Type := { trace : list event; pbar : tqdm }.

Definition init_state : state := {| trace := []; pbar := {| total := 0; n := 0 |} |}.

(** How one launch of a child process ends. *)
Inductive outcome : Type :=
| Returncode (rc : Z)
| LaunchError (c : exc_class) (detail : string).

(** The outside world: the child process launcher, which may answer
    according to the commands invoked so far, and the file system. *)
Record World : Type :=
  { spawn : list (list string) -> list string -> outcome;
    path_exists : string -> bool;
    getcwd : string }.

Definition invoked (t : list event) : list (list string) :=
  flat_map (fun ev => match ev with EvInvoke cmd => [cmd] | _ => [] end) t.

(* ================================================================= *)
(** ** A state, exception and exit monad *)

Inductive result (A : Type) : Type :=
| Normal (a : A) (s : state)
| Raised (e : exn) (s : state)
| Exited (code : Z) (s : state).

Arguments Normal {A} a s.
Arguments Raised {A} e s.
Arguments Exited {A} code s.

Definition M (A : Type) : Type := state -> result A.

Definition ret {A : Type} (a : A) : M A := fun s => Normal a s.

Definition bind {A B : Type} (m : M A) (k : A -> M B) : M B :=
  fun s =>
    match m s with
    | Normal a s' => k a s'
    | Raised e s' => Raised e s'
    | Exited code s' => Exited code s'
    end.

Notation "x <- m ;; k" := (bind m (fun x => k))
  (at level 61, m at next level, right associativity).
Notation "m ;; k" := (bind m (fun _ => k))
  (at level 61, right associativity).

Definition final_state {A : Type} (r : result A) : state :=
  match r with
  | Normal _ s | Raised _ s | Exited _ s => s
  end.

Definition emit (ev : event) (s : state) : state :=
  {| trace := trace s ++ [ev]; pbar := pbar s |}.

Definition logging_info (msg : string) (args : list log_arg) : M unit :=
  fun s => Normal tt (emit (EvLog INFO msg args) s).

Definition logging_error (msg : string) (args : list log_arg) : M unit :=
  fun s => Normal tt (emit (EvLog ERROR msg args) s).

(** [sys.exit(arg)]: no argument means status 0. *)
Definition sys_exit {A : Type} (arg : option Z) : M A :=
  fun s => Exited (match arg with None => 0 | Some code => code end) s.

(** [subprocess.check_call(cmd)]: run the command and wait; a non-zero return
    code raises [CalledProcessError], a failed launch raises its own error. *)
Definition check_call (w : World) (cmd : list string) : M unit :=
  fun s =>
    let s' := emit (EvInvoke cmd) s in
    match spawn w (invoked (trace s)) cmd with
    | Returncode 0 => Normal tt s'
    | Returncode rc => Raised (RaiseCalledProcessError rc cmd) s'
    | LaunchError c detail => Raised (RaiseOther c detail) s'
    end.

(** [with tqdm(total=...) as pbar: body] and [pbar.update(k)]. *)
Definition with_tqdm {A : Type} (tot : nat) (body : M A) : M A :=
  fun s => body {| trace := trace s; pbar := {| total := tot; n := 0 |} |}.

Definition pbar_update (k : nat) : M unit :=
  fun s =>
    Normal tt {| trace := trace s ++ [EvUpdate k];
                 pbar := {| total := total (pbar s); n := n (pbar s) + k |} |}.

Fixpoint for_each {A : Type} (l : list A) (body : A -> M unit) : M unit :=
  match l with
  | [] => ret tt
  | x :: l' => body x ;; for_each l' body
  end.

(** [try: body  except C1 as e: h1  except C2 as e: h2 ...]: the first clause
    whose class the exception is an instance of handles it. *)
Definition try_except {A : Type} (body : M A)
    (handlers : list (exc_class * (exn -> M A))) : M A :=
  fun s =>
    match body s with
    | Raised e s' =>
        match find (fun h => isinstance e (fst h)) handlers with
        | Some h => snd h e s'
        | None => Raised e s'
        end
    | r => r
    end.

(* ================================================================= *)
(** ** [create_template] (lines 15-76) *)

(** The body of the [for] loop, lines 65-68. *)
Definition run_step (w : World) (vm_id : Z) (st : step) : M unit :=
  let '(desc, cmd) := st in
  (if Py.truthy_list cmd
   then logging_info (desc ++ " for VM ID " ++ Py.str vm_id) [] ;;
        check_call w cmd
   else ret tt) ;;
  pbar_update 1.

(** Lines 62-76, for the step table [stps]. *)
Definition create_template_body (w : World) (vm_id : Z) (stps : list step) : M unit :=
  try_except
    (with_tqdm (List.length stps) (for_each stps (run_step w vm_id)) ;;
     logging_info "Template creation for VM ID %s completed successfully" [ArgInt vm_id])
    [ (CalledProcessError,
        fun e => logging_error "An error occurred while creating the template: %s" [ArgExc e]);
      (FileNotFoundError,
        fun e => logging_error "File not found error: %s" [ArgExc e]);
      (Exception,
        fun e => logging_error "An unexpected error occurred: %s" [ArgExc e]) ].

Definition create_template (w : World) (vm_id : Z) (vm_name : string)
    (vm_vlan mem cores : Z) (cinit iso_file ostype : string) : M unit :=
  create_template_body w vm_id
    (steps vm_id vm_name vm_vlan mem cores cinit iso_file ostype).

(* ================================================================= *)
(** ** [main] (lines 79-153), from the parsed arguments on *)

Record Namespace : Type :=
  { vmid : Z; name : string; vlan : Z; memory : Z; cores : Z;
    cinit : string; iso : string; ostype : string }.

Definition iso_dir : string := "/var/lib/vz/template/iso".
Definition snippets_dir : string := "/var/lib/vz/snippets".

Definition main (w : World) (args : Namespace) : M unit :=
  (if Py.contains " " (name args)
   then logging_error "VM name contains spaces. Please use a name without spaces." [] ;;
        sys_exit None
   else ret tt) ;;
  iso1 <- (if negb (Py.isabs (iso args))
           then let p := Py.join (getcwd w) (iso args) in
                logging_info ("Converted ISO path to absolute path: " ++ p) [] ;;
                ret p
           else ret (iso args)) ;;
  iso2 <- (if negb (path_exists w iso1)
           then logging_info ("ISO file not found in current directory, checking " ++ iso_dir) [] ;;
                let iso_file_in_dir := Py.join iso_dir (Py.basename iso1) in
                if path_exists w iso_file_in_dir
                then logging_info ("ISO file found in " ++ iso_dir ++ ", using path: "
                                   ++ iso_file_in_dir) [] ;;
                     ret iso_file_in_dir
                else logging_error ("The ISO file must be located in the current directory or '"
                                    ++ iso_dir ++ "'") [] ;;
                     sys_exit (Some 1)
           else ret iso1) ;;
  (if Py.truthy_str (cinit args)
   then let cinit_file := Py.join snippets_dir (cinit args) in
        if negb (path_exists w cinit_file)
        then logging_error ("The Cloud-Init file '" ++ cinit args ++ "' does not exist in '"
                            ++ snippets_dir ++ "'") [] ;;
             sys_exit (Some 1)
        else ret tt
   else ret tt) ;;
  create_template w (vmid args) (name args) (vlan args) (memory args) (cores args)
    (cinit args) iso2 (ostype args).

(* ================================================================= *)
(** ** Vocabulary for the statements *)

(** The commands of a step table that reach [check_call], in order. *)
Definition commands (stps : list step) : list (list string) :=
  filter Py.truthy_list (map snd stps).

(** Every command of [cmds], launched in order after the history [hist],
    returns 0. *)
Fixpoint all_succeed (w : World) (hist cmds : list (list string)) : bool :=
  match cmds with
  | [] => true
  | cmd :: rest =>
      match spawn w hist cmd with
      | Returncode 0 => all_succeed w (hist ++ [cmd]) rest
      | _ => false
      end
  end.

Definition abnormal (o : outcome) : bool :=
  match o with Returncode 0 => false | _ => true end.

(** The exception [check_call cmd] raises on an abnormal outcome. *)
Definition raised_by (cmd : list string) (o : outcome) : exn :=
  match o with
  | Returncode rc => RaiseCalledProcessError rc cmd
  | LaunchError c detail => RaiseOther c detail
  end.

(** The line logged before a command is invoked, and the closing line. *)
Definition announce (vm_id : Z) (desc : string) : event :=
  EvLog INFO (desc ++ " for VM ID " ++ Py.str vm_id) [].

Definition success_line (vm_id : Z) : event :=
  EvLog INFO "Template creation for VM ID %s completed successfully" [ArgInt vm_id].

(** What a step that completes leaves in the trace. *)
Definition step_events (vm_id : Z) (st : step) : list event :=
  (if Py.truthy_list (snd st)
   then [announce vm_id (fst st); EvInvoke (snd st)]
   else []) ++ [EvUpdate 1].

Definition is_error (ev : event) : bool :=
  match ev with EvLog ERROR _ _ => true | _ => false end.

Definition is_update (ev : event) : bool :=
  match ev with EvUpdate _ => true | _ => false end.

Definition is_success_line (ev : event) : bool :=
  match ev with
  | EvLog INFO msg [ArgInt _] =>
      String.eqb msg "Template creation for VM ID %s completed successfully"
  | _ => false
  end.

(** The character [c] occurs in [s]. *)
Fixpoint mentions (c : ascii) (s : string) : bool :=
  match s with
  | EmptyString => false
  | String a s' => if ascii_dec c a then true else mentions c s'
  end.

(** The last error record of a trace, if any. *)
Definition last_error (t : list event) : option event :=
  match rev (filter is_error t) with
  | [] => None
  | ev :: _ => Some ev
  end.

(** The three failure kinds of the specification, read off the message of the
    error record: one kind per [except] clause. *)
Inductive failure_kind : Type := CommandFailed | ExecutableMissing | UnclassifiedFailure.

Definition kind_of_diagnostic (ev : event) : option failure_kind :=
  match ev with
  | EvLog ERROR msg _ =>
      if String.eqb msg "An error occurred while creating the template: %s"
      then Some CommandFailed
      else if String.eqb msg "File not found error: %s"
      then Some ExecutableMissing
      else if String.eqb msg "An unexpected error occurred: %s"
      then Some UnclassifiedFailure
      else None
  | _ => None
  end.

(** The names the specification gives to the seven steps, and the
    description the code prints for each. *)
Inductive step_name : Type :=
| Create | ConfigureNetwork | SetISO | ConfigureBoot | ConfigureCloudInit
| SetCloudInitCustomization | CreatingTemplate.

Definition spec_order : list step_name :=
  [Create; ConfigureNetwork; SetISO; ConfigureBoot; ConfigureCloudInit;
   SetCloudInitCustomization; CreatingTemplate].

Definition description_of (nm : step_name) : string :=
  match nm with
  | Create => "Creating VM"
  | ConfigureNetwork => "Configuring Network"
  | SetISO => "Setting ISO"
  | ConfigureBoot => "Configuring Boot"
  | ConfigureCloudInit => "Configuring Cloud-Init"
  | SetCloudInitCustomization => "Setting Cloud-Init Customization"
  | CreatingTemplate => "Creating Template"
  end.

(* ================================================================= *)
(** ** Sample worlds *)

Module Sample.

(** Every command returns 0; only [/isos/debian.iso] exists. *)
Definition healthy : World :=
  {| spawn := fun _ _ => Returncode 0;
     path_exists := fun p => String.eqb p "/isos/debian.iso";
     getcwd := "/root" |}.

(** The tool rejects the disk import: any command with [--scsi0] returns 255. *)
Definition bad_iso : World :=
  {| spawn := fun _ cmd =>
                if existsb (String.eqb "--scsi0") cmd then Returncode 255
                else Returncode 0;
     path_exists := fun _ => true;
     getcwd := "/root" |}.

(** No [qm] on the PATH: every launch fails with [FileNotFoundError]. *)
Definition no_qm : World :=
  {| spawn := fun _ _ =>
                LaunchError FileNotFoundError "[Errno 2] No such file or directory: 'qm'";
     path_exists := fun _ => true;
     getcwd := "/root" |}.

(** [qm] is there but may not be executed. *)
Definition locked_qm : World :=
  {| spawn := fun _ _ => LaunchError PermissionError "[Errno 13] Permission denied: 'qm'";
     path_exists := fun _ => true;
     getcwd := "/root" |}.

(** The third launch (whatever the command) returns 1. *)
Definition third_fails : World :=
  {| spawn := fun hist _ =>
                if Nat.eqb (List.length hist) 2 then Returncode 1 else Returncode 0;
     path_exists := fun _ => true;
     getcwd := "/root" |}.

(** The two scenarios of the specification. *)
Definition table_9001 : list step :=
  steps 9001 "tmpl-test" 0 2046 2 "" "/nonexistent.iso" "l26".

Definition table_9002 : list step :=
  steps 9002 "tmpl-ok" 0 2046 2 "" "/x.iso" "l26".

Definition args_with_space : Namespace :=
  {| vmid := 100; name := "my vm"; vlan := 0; memory := 2046; cores := 2;
     cinit := ""; iso := "/isos/debian.iso"; ostype := "l26" |}.

(** A hypervisor that refuses a command it has already been given (a second
    [qm create] for the same VM ID, for one). *)
Definition same_command (a b : list string) : bool :=
  if list_eq_dec string_dec a b then true else false.

Definition rejects_repeats : World :=
  {| spawn := fun hist cmd =>
                if existsb (same_command cmd) hist then Returncode 255 else Returncode 0;
     path_exists := fun _ => true;
     getcwd := "/root" |}.

(** The ISO is only in the ISO store of the host. *)
Definition iso_in_store : World :=
  {| spawn := fun _ _ => Returncode 0;
     path_exists := fun p => String.eqb p "/var/lib/vz/template/iso/debian.iso";
     getcwd := "/root" |}.

(** A snippet lies outside the snippets directory, and [qm] fails at once. *)
Definition stray_snippet : World :=
  {| spawn := fun _ _ => Returncode 2;
     path_exists := fun p => String.eqb p "/isos/debian.iso" || String.eqb p "/tmp/user.yaml";
     getcwd := "/root" |}.

Definition args_ok : Namespace :=
  {| vmid := 9002; name := "tmpl-ok"; vlan := 0; memory := 2046; cores := 2;
     cinit := ""; iso := "/isos/debian.iso"; ostype := "l26" |}.

Definition args_relative_iso : Namespace :=
  {| vmid := 9002; name := "tmpl-ok"; vlan := 0; memory := 2046; cores := 2;
     cinit := ""; iso := "images/debian.iso"; ostype := "l26" |}.

Definition args_stray_snippet : Namespace :=
  {| vmid := 9002; name := "tmpl-ok"; vlan := 0; memory := 2046; cores := 2;
     cinit := "/tmp/user.yaml"; iso := "/isos/debian.iso"; ostype := "l26" |}.

(** Nothing exists but the ISO directory itself. *)
Definition store_only : World :=
  {| spawn := fun _ _ => Returncode 0;
     path_exists := fun p => String.eqb p "/var/lib/vz/template/iso/";
     getcwd := "/root" |}.

Definition args_trailing_slash : Namespace :=
  {| vmid := 9002; name := "tmpl-ok"; vlan := 0; memory := 2046; cores := 2;
     cinit := ""; iso := "images/"; ostype := "l26" |}.

End Sample.

(** The error record the [except] clauses leave for [e]. *)
Definition error_line (e : exn) : event :=
  EvLog ERROR
    (if isinstance e CalledProcessError
     then "An error occurred while creating the template: %s"
     else if isinstance e FileNotFoundError
     then "File not found error: %s"
     else "An unexpected error occurred: %s")
    [ArgExc e].

(** State after the events [evs] and [k] progress updates under a bar of
    [tot] slots. *)
Definition after (s : state) (evs : list event) (tot k : nat) : state :=
  {| trace := trace s ++ evs; pbar := {| total := tot; n := k |} |}.

(** The ISO path after line 119 of [main], and the candidate in the ISO
    directory that line 126 builds from it. *)
Definition absolute_iso (w : World) (args : Namespace) : string :=
  if Py.isabs (iso args) then iso args else Py.join (getcwd w) (iso args).

Definition iso_in_dir (w : World) (args : Namespace) : string :=
  Py.join iso_dir (Py.basename (absolute_iso w args)).

(** [create_template] called with the arguments [main] parsed and the ISO
    path [iso_file] it settled on. *)
Definition create_template_for (w : World) (args : Namespace) (iso_file : string) : M unit :=
  create_template w (vmid args) (name args) (vlan args) (memory args) (cores args)
    (cinit args) iso_file (ostype args).

(* ================================================================= *)
(** ** The calls that can raise outside the [try] *)

(** [Py.str] and the [getcwd] field of [World] say what [str(n)] and
    [os.getcwd()] return when they return.  Both can raise instead:
    CPython refuses to convert an [int] of more than 4300 decimal digits, and
    [os.getcwd()] fails when the working directory has been removed.  In
    [create_template] the conversions of lines 40-59 stand before the [try],
    and in [main] the call of line 119 stands outside any handler.  The
    functions below are the source with these two outcomes kept. *)
Module Checked.

(** [sys.int_info.default_max_str_digits]. *)
Definition int_max_str_digits : nat := 4300.

(** The number of decimal digits of [n], sign apart. *)
Definition decimal_digits (n : Z) : nat := String.length (Py.str (Z.abs n)).

Definition too_long (n : Z) : bool := Nat.ltb int_max_str_digits (decimal_digits n).

Definition int_str_error : exn :=
  RaiseOther ValueError
    "Exceeds the limit (4300 digits) for integer string conversion; use sys.set_int_max_str_digits() to increase the limit".

(** [str(n)], and [f"{n}"], for an [int]. *)
Definition str (n : Z) : M string :=
  fun s => if too_long n then Raised int_str_error s else Normal (Py.str n) s.

(** Lines 38-60, the conversions in the order the list display evaluates
    them. *)
Definition steps (vm_id : Z) (vm_name : string) (vm_vlan mem cores : Z)
    (cinit iso_file ostype : string) : M (list step) :=
  id1 <- str vm_id ;;
  id2 <- str vm_id ;;
  tag <- (if Py.truthy_int vm_vlan
          then v <- str vm_vlan ;; ret (",tag=" ++ v)
          else ret "") ;;
  m <- str mem ;;
  c <- str cores ;;
  id3 <- str vm_id ;;
  id4 <- str vm_id ;;
  id5 <- str vm_id ;;
  cmd6 <- (if Py.truthy_str cinit
           then id6 <- str vm_id ;;
                ret ["qm"; "set"; id6; "--cicustom"; "user=local:snippets/" ++ cinit]
           else ret []) ;;
  id7 <- str vm_id ;;
  ret [ ("Creating VM",
          ["qm"; "create"; id1; "--name"; vm_name; "--ostype"; ostype; "--tablet"; "0"]);
        ("Configuring Network",
          ["qm"; "set"; id2; "--net0"; "virtio,bridge=vmbr0" ++ tag;
           "--memory"; m; "--cores"; c; "--cpu"; "host"]);
        ("Setting ISO",
          ["qm"; "set"; id3; "--scsi0";
           "local-lvm:0,import-from=" ++ iso_file ++ ",discard=on,ssd=1"]);
        ("Configuring Boot",
          ["qm"; "set"; id4; "--boot"; "order=scsi0"; "--scsihw";
           "virtio-scsi-single"; "--agent"; "enabled=1,fstrim_cloned_disks=1"]);
        ("Configuring Cloud-Init",
          ["qm"; "set"; id5; "--ide2"; "local-lvm:cloudinit"; "--ipconfig0"; "ip=dhcp"]);
        ("Setting Cloud-Init Customization", cmd6);
        ("Creating Template", ["qm"; "template"; id7]) ].

(** Lines 15-76: the table is built first, then the [try] statement runs.
    Inside it [vm_id] is formatted again (line 66), which cannot fail once
    line 40 has converted it. *)
Definition create_template (w : World) (vm_id : Z) (vm_name : string)
    (vm_vlan mem cores : Z) (cinit iso_file ostype : string) : M unit :=
  stps <- steps vm_id vm_name vm_vlan mem cores cinit iso_file ostype ;;
  create_template_body w vm_id stps.

(** The integers [create_template] converts all pass the limit. *)
Definition within_limit (vm_id vm_vlan mem cores : Z) : bool :=
  negb (too_long vm_id)
  && (negb (Py.truthy_int vm_vlan) || negb (too_long vm_vlan))
  && negb (too_long mem)
  && negb (too_long cores).

(** The process: the outside world, and whether its working directory has
    been removed. *)
Record Process : Type := { world : World; cwd_gone : bool }.

Definition getcwd_error : exn :=
  RaiseOther FileNotFoundError "[Errno 2] No such file or directory".

(** [os.getcwd()]. *)
Definition os_getcwd (p : Process) : M string :=
  fun s => if cwd_gone p then Raised getcwd_error s else Normal (getcwd (world p)) s.

Definition create_template_for (p : Process) (args : Namespace) (iso_file : string) : M unit :=
  create_template (world p) (vmid args) (name args) (vlan args) (memory args) (cores args)
    (cinit args) iso_file (ostype args).

(** Lines 111-153. *)
Definition main (p : Process) (args : Namespace) : M unit :=
  (if Py.contains " " (name args)
   then logging_error "VM name contains spaces. Please use a name without spaces." [] ;;
        sys_exit None
   else ret tt) ;;
  iso1 <- (if negb (Py.isabs (iso args))
           then cwd <- os_getcwd p ;;
                let pth := Py.join cwd (iso args) in
                logging_info ("Converted ISO path to absolute path: " ++ pth) [] ;;
                ret pth
           else ret (iso args)) ;;
  iso2 <- (if negb (path_exists (world p) iso1)
           then logging_info ("ISO file not found in current directory, checking " ++ iso_dir) [] ;;
                let iso_file_in_dir := Py.join iso_dir (Py.basename iso1) in
                if path_exists (world p) iso_file_in_dir
                then logging_info ("ISO file found in " ++ iso_dir ++ ", using path: "
                                   ++ iso_file_in_dir) [] ;;
                     ret iso_file_in_dir
                else logging_error ("The ISO file must be located in the current directory or '"
                                    ++ iso_dir ++ "'") [] ;;
                     sys_exit (Some 1)
           else ret iso1) ;;
  (if Py.truthy_str (cinit args)
   then let cinit_file := Py.join snippets_dir (cinit args) in
        if negb (path_exists (world p) cinit_file)
        then logging_error ("The Cloud-Init file '" ++ cinit args ++ "' does not exist in '"
                            ++ snippets_dir ++ "'") [] ;;
             sys_exit (Some 1)
        else ret tt
   else ret tt) ;;
  create_template_for p args iso2.

(** The healthy host, run from a directory that has been removed. *)
Definition removed_cwd : Process := {| world := Sample.healthy; cwd_gone := true |}.

(** The healthy host with its working directory in place. *)
Definition at_home : Process := {| world := Sample.healthy; cwd_gone := false |}.

End Checked.

(* ================================================================= *)
(** * Properties *)

Local Open Scope list_scope.

(** ** Exceptions and the handler chain *)

Lemma issubclass_Exception (c : exc_class) : issubclass c Exception = true.
Proof. destruct c; reflexivity. Qed.

Lemma isinstance_Exception (e : exn) : isinstance e Exception = true.
Proof. apply issubclass_Exception. Qed.

Lemma raised_by_CalledProcessError (cmd : list string) (rc : Z) :
  isinstance (raised_by cmd (Returncode rc)) CalledProcessError = true.
Proof. reflexivity. Qed.

Lemma kind_of_error_line (e : exn) :
  kind_of_diagnostic (error_line e) =
  Some (if isinstance e CalledProcessError then CommandFailed
        else if isinstance e FileNotFoundError then ExecutableMissing
        else UnclassifiedFailure).
Proof.
  unfold error_line.
  destruct (isinstance e CalledProcessError); [reflexivity|].
  destruct (isinstance e FileNotFoundError); reflexivity.
Qed.

(** ** Traces *)

Lemma invoked_app (a b : list event) : invoked (a ++ b) = invoked a ++ invoked b.
Proof. unfold invoked. apply flat_map_app. Qed.

Lemma invoked_step_events (vm_id : Z) (l : list step) :
  invoked (flat_map (step_events vm_id) l) = commands l.
Proof.
  induction l as [|[desc cmd] l IH]; [reflexivity|].
  cbn [flat_map]. rewrite invoked_app, IH.
  unfold commands. cbn [map filter snd].
  destruct cmd; reflexivity.
Qed.

Lemma commands_app (a b : list step) : commands (a ++ b) = commands a ++ commands b.
Proof. unfold commands. now rewrite map_app, filter_app. Qed.

Lemma all_succeed_app (w : World) (a b hist : list (list string)) :
  all_succeed w hist (a ++ b) = all_succeed w hist a && all_succeed w (hist ++ a) b.
Proof.
  revert hist. induction a as [|c a IH]; intros hist; cbn.
  - now rewrite app_nil_r.
  - destruct (spawn w hist c) as [[| |]|]; try reflexivity.
    rewrite IH. now rewrite <- app_assoc.
Qed.

Lemma filter_count_updates (vm_id : Z) (l : list step) :
  List.length (filter is_update (flat_map (step_events vm_id) l)) = List.length l.
Proof.
  induction l as [|[desc cmd] l IH]; [reflexivity|].
  cbn [flat_map]. rewrite filter_app, length_app, IH.
  destruct cmd; reflexivity.
Qed.

(** ** The loop *)

Section Loop.

Variable w : World.
Variable vm_id : Z.

Lemma run_step_noop (desc : string) (s : state) :
  run_step w vm_id (desc, []) s =
  Normal tt (after s [EvUpdate 1] (total (pbar s)) (n (pbar s) + 1)).
Proof. reflexivity. Qed.

Lemma run_step_ok (desc : string) (cmd : list string) (s : state) :
  Py.truthy_list cmd = true ->
  spawn w (invoked (trace s)) cmd = Returncode 0 ->
  run_step w vm_id (desc, cmd) s =
  Normal tt (after s (step_events vm_id (desc, cmd)) (total (pbar s)) (n (pbar s) + 1)).
Proof.
  intros Hcmd Hsp.
  unfold run_step, bind, logging_info, check_call, pbar_update, step_events, after.
  cbn [fst snd]. rewrite Hcmd. cbn [emit trace pbar].
  rewrite invoked_app, app_nil_r, Hsp. cbn [emit trace pbar total n].
  unfold announce. now rewrite <- !app_assoc.
Qed.

Lemma run_step_raise (desc : string) (cmd : list string) (s : state) :
  Py.truthy_list cmd = true ->
  abnormal (spawn w (invoked (trace s)) cmd) = true ->
  run_step w vm_id (desc, cmd) s =
  Raised (raised_by cmd (spawn w (invoked (trace s)) cmd))
         (after s [announce vm_id desc; EvInvoke cmd] (total (pbar s)) (n (pbar s))).
Proof.
  intros Hcmd Hab.
  unfold run_step, bind, logging_info, check_call, pbar_update, after.
  rewrite Hcmd. cbn [emit trace pbar].
  rewrite invoked_app, app_nil_r.
  destruct (spawn w (invoked (trace s)) cmd) as [[| |]|]; cbn in Hab;
    try discriminate.
  all: unfold emit, announce; cbn [raised_by trace pbar total n].
  all: rewrite <- !app_assoc; destruct s as [t [tt0 k]]; reflexivity.
Qed.

Lemma commands_cons (st : step) (l : list step) :
  commands (st :: l) = invoked (step_events vm_id st) ++ commands l.
Proof. destruct st as [d [|a c]]; reflexivity. Qed.

Lemma run_step_done (st : step) (s : state) :
  all_succeed w (invoked (trace s)) (invoked (step_events vm_id st)) = true ->
  run_step w vm_id st s =
  Normal tt (after s (step_events vm_id st) (total (pbar s)) (n (pbar s) + 1)).
Proof.
  destruct st as [d [|a c]]; intros Hall; [apply run_step_noop|].
  apply run_step_ok; [reflexivity|].
  cbn in Hall. destruct (spawn w (invoked (trace s)) (a :: c)) as [[| |]|];
    try discriminate; reflexivity.
Qed.

(** All commands return 0: every slot is processed. *)
Lemma for_each_ok (l : list step) (s : state) :
  all_succeed w (invoked (trace s)) (commands l) = true ->
  for_each l (run_step w vm_id) s =
  Normal tt (after s (flat_map (step_events vm_id) l)
               (total (pbar s)) (n (pbar s) + List.length l)).
Proof.
  revert s. induction l as [|st l IH]; intros s Hall.
  - cbn. unfold ret, after. rewrite app_nil_r, Nat.add_0_r.
    destruct s as [t [tt0 k]]; reflexivity.
  - rewrite commands_cons, all_succeed_app in Hall.
    apply andb_true_iff in Hall as [Hst Hall].
    cbn [for_each]. unfold bind at 1.
    rewrite run_step_done by exact Hst.
    rewrite IH by (unfold after; cbn [trace]; rewrite invoked_app; exact Hall).
    unfold after. cbn [trace pbar total n flat_map List.length].
    rewrite <- app_assoc. do 3 f_equal. lia.
Qed.

(** The commands before a step return 0 and the step's own does not: the
    loop leaves at that step. *)
Lemma for_each_raise (pre post : list step) (desc : string) (cmd : list string)
    (s : state) :
  all_succeed w (invoked (trace s)) (commands pre) = true ->
  Py.truthy_list cmd = true ->
  abnormal (spawn w (invoked (trace s) ++ commands pre) cmd) = true ->
  for_each (pre ++ (desc, cmd) :: post) (run_step w vm_id) s =
  Raised (raised_by cmd (spawn w (invoked (trace s) ++ commands pre) cmd))
         (after s (flat_map (step_events vm_id) pre ++ [announce vm_id desc; EvInvoke cmd])
            (total (pbar s)) (n (pbar s) + List.length pre)).
Proof.
  revert s. induction pre as [|st pre IH]; intros s Hall Hcmd Hab.
  - cbn [app for_each commands map filter] in *. unfold bind.
    rewrite app_nil_r in *.
    rewrite run_step_raise by assumption.
    unfold after. cbn [flat_map app List.length]. now rewrite Nat.add_0_r.
  - rewrite commands_cons in Hall, Hab |- *. rewrite all_succeed_app in Hall.
    apply andb_true_iff in Hall as [Hst Hall].
    rewrite app_assoc in Hab |- *. rewrite <- invoked_app in Hall, Hab |- *.
    cbn [app for_each]. unfold bind at 1.
    rewrite run_step_done by exact Hst.
    rewrite IH; try assumption.
    unfold after. cbn [trace pbar total n flat_map List.length].
    rewrite <- !app_assoc. do 3 f_equal. lia.
Qed.

(** Either every command returns 0, or there is a first step whose command
    ends abnormally. *)
Lemma first_failure (l : list step) (hist : list (list string)) :
  all_succeed w hist (commands l) = true \/
  exists pre desc cmd post,
    l = pre ++ (desc, cmd) :: post /\
    all_succeed w hist (commands pre) = true /\
    Py.truthy_list cmd = true /\
    abnormal (spawn w (hist ++ commands pre) cmd) = true.
Proof.
  revert hist. induction l as [|[d c] l IH]; intros hist; [now left|].
  destruct (abnormal (spawn w hist c) && Py.truthy_list c) eqn:Hbad.
  - apply andb_true_iff in Hbad as [Hab Hc]. right.
    exists [], d, c, l. cbn. rewrite app_nil_r. auto.
  - assert (Hok : all_succeed w hist (invoked (step_events vm_id (d, c))) = true).
    { destruct c as [|a c]; [reflexivity|]. cbn in Hbad |- *.
      rewrite andb_true_r in Hbad.
      destruct (spawn w hist (a :: c)) as [[| |]|]; try discriminate; reflexivity. }
    destruct (IH (hist ++ invoked (step_events vm_id (d, c)))) as [Hall|Hfail].
    + left. rewrite commands_cons, all_succeed_app, Hok, Hall. reflexivity.
    + right. destruct Hfail as (pre & desc & cmd & post & -> & Hall & Hcmd & Hab).
      exists ((d, c) :: pre), desc, cmd, post. rewrite commands_cons.
      rewrite all_succeed_app, Hok, Hall, app_assoc. auto.
Qed.

End Loop.

(** ** The [try] statement around the loop *)

Lemma except_chain (body : M unit) (e : exn) (s s' : state) :
  body s = Raised e s' ->
  try_except body
    [ (CalledProcessError,
        fun e => logging_error "An error occurred while creating the template: %s" [ArgExc e]);
      (FileNotFoundError,
        fun e => logging_error "File not found error: %s" [ArgExc e]);
      (Exception,
        fun e => logging_error "An unexpected error occurred: %s" [ArgExc e]) ] s
  = Normal tt (emit (error_line e) s').
Proof.
  intros Hbody. unfold try_except. rewrite Hbody. cbn [find fst snd].
  unfold error_line.
  destruct (isinstance e CalledProcessError); [reflexivity|].
  destruct (isinstance e FileNotFoundError); [reflexivity|].
  rewrite isinstance_Exception. reflexivity.
Qed.

Lemma create_template_body_ok (w : World) (vm_id : Z) (l : list step) (s : state) :
  all_succeed w (invoked (trace s)) (commands l) = true ->
  create_template_body w vm_id l s =
  Normal tt (after s (flat_map (step_events vm_id) l ++ [success_line vm_id])
               (List.length l) (List.length l)).
Proof.
  intros Hall. unfold create_template_body, try_except, bind, with_tqdm.
  rewrite for_each_ok by exact Hall.
  unfold logging_info, emit, after, success_line. cbn [trace pbar total n].
  now rewrite <- app_assoc.
Qed.

Lemma create_template_body_raise (w : World) (vm_id : Z) (pre post : list step)
    (desc : string) (cmd : list string) (s : state) :
  all_succeed w (invoked (trace s)) (commands pre) = true ->
  Py.truthy_list cmd = true ->
  abnormal (spawn w (invoked (trace s) ++ commands pre) cmd) = true ->
  create_template_body w vm_id (pre ++ (desc, cmd) :: post) s =
  Normal tt
    (after s
       (flat_map (step_events vm_id) pre ++
        [announce vm_id desc; EvInvoke cmd;
         error_line (raised_by cmd (spawn w (invoked (trace s) ++ commands pre) cmd))])
       (List.length (pre ++ (desc, cmd) :: post)) (List.length pre)).
Proof.
  intros Hall Hcmd Hab. unfold create_template_body.
  erewrite except_chain.
  2:{ unfold bind, with_tqdm. rewrite for_each_raise by assumption. reflexivity. }
  unfold emit, after. cbn [trace pbar total n].
  rewrite <- !app_assoc. reflexivity.
Qed.

(** ** What completed steps leave in the trace *)

Lemma no_error_in_step_events (vm_id : Z) (l : list step) :
  filter is_error (flat_map (step_events vm_id) l) = [].
Proof.
  induction l as [|[d [|a c]] l IH]; [reflexivity| |];
    cbn [flat_map]; rewrite filter_app, IH; reflexivity.
Qed.

Lemma no_success_in_step_events (vm_id : Z) (l : list step) :
  existsb is_success_line (flat_map (step_events vm_id) l) = false.
Proof.
  induction l as [|[d [|a c]] l IH]; [reflexivity| |];
    cbn [flat_map]; rewrite existsb_app, IH; reflexivity.
Qed.

Lemma is_error_error_line (e : exn) : is_error (error_line e) = true.
Proof. reflexivity. Qed.

Lemma is_success_error_line (e : exn) : is_success_line (error_line e) = false.
Proof. reflexivity. Qed.

(** ** The shape of every run *)

Lemma all_succeed_false_at (w : World) (hist : list (list string)) (pre post : list step)
    (desc : string) (cmd : list string) :
  Py.truthy_list cmd = true ->
  abnormal (spawn w (hist ++ commands pre) cmd) = true ->
  all_succeed w hist (commands (pre ++ (desc, cmd) :: post)) = false.
Proof.
  intros Hcmd Hab. rewrite commands_app, all_succeed_app.
  apply andb_false_iff. right.
  unfold commands in *. cbn [map filter snd]. rewrite Hcmd. cbn [all_succeed].
  destruct (spawn w (hist ++ filter Py.truthy_list (map snd pre)) cmd) as [[| |]|];
    cbn in Hab; try reflexivity; discriminate.
Qed.

Lemma firstn_length_app {A : Type} (a b : list A) : firstn (List.length a) (a ++ b) = a.
Proof. induction a as [|x a IH]; [destruct b; reflexivity|]. cbn. now rewrite IH. Qed.

Lemma in_firstn {A : Type} (x : A) (j : nat) (l : list A) : In x (firstn j l) -> In x l.
Proof.
  revert l. induction j as [|j IH]; intros [|y l]; cbn; try tauto.
  intros [->|Hin]; [now left|right; now apply IH].
Qed.

Lemma nth_error_length_app {A : Type} (a b : list A) (x : A) :
  nth_error (a ++ x :: b) (List.length a) = Some x.
Proof. induction a as [|y a IH]; [reflexivity|exact IH]. Qed.

(** A run processes the first [k] slots in full; then it either logs the
    success line ([k] is the number of steps) or it has announced and invoked
    step [k], whose command ended abnormally, and logs the error. *)
Lemma trace_shape (w : World) (vm_id : Z) (stps : list step) (s : state) :
  exists (k : nat) (tail : list event),
    create_template_body w vm_id stps s =
      Normal tt (after s (flat_map (step_events vm_id) (firstn k stps) ++ tail)
                   (List.length stps) k) /\
    ((all_succeed w (invoked (trace s)) (commands stps) = true /\
      k = List.length stps /\ tail = [success_line vm_id])
     \/
     (all_succeed w (invoked (trace s)) (commands stps) = false /\
      (k < List.length stps)%nat /\
      exists desc cmd,
        nth_error stps k = Some (desc, cmd) /\
        Py.truthy_list cmd = true /\
        abnormal (spawn w (invoked (trace s) ++ commands (firstn k stps)) cmd) = true /\
        tail = [announce vm_id desc; EvInvoke cmd;
                error_line (raised_by cmd
                  (spawn w (invoked (trace s) ++ commands (firstn k stps)) cmd))])).
Proof.
  destruct (first_failure w vm_id stps (invoked (trace s)))
    as [Hall | (pre & desc & cmd & post & -> & Hall & Hcmd & Hab)].
  - exists (List.length stps), [success_line vm_id]. rewrite firstn_all.
    split; [now apply create_template_body_ok|]. left. auto.
  - exists (List.length pre). eexists. rewrite firstn_length_app.
    split; [now apply create_template_body_raise|]. right.
    split; [now apply all_succeed_false_at|].
    split; [rewrite length_app; cbn; lia|].
    exists desc, cmd. rewrite nth_error_length_app. auto.
Qed.

(* ================================================================= *)
(** * The claims *)

(** ** Fail-fast execution *)

(** C1.  Take any step table and any step of it whose command ends abnormally
    (a non-zero return code or a failed launch) after the commands of the
    steps before it have all returned 0.  The run stops there: the commands
    handed to [check_call] are exactly those of the earlier steps followed by
    the failing one, each once and in order, so no later step is invoked and
    nothing already applied is run again or undone; exactly one error record
    is logged, it is the last event, and the success line is never logged. *)
Theorem fail_fast_stops_at_first_failure
    (w : World) (vm_id : Z) (pre post : list step) (desc : string)
    (cmd : list string) (s : state) :
  all_succeed w (invoked (trace s)) (commands pre) = true ->
  Py.truthy_list cmd = true ->
  abnormal (spawn w (invoked (trace s) ++ commands pre) cmd) = true ->
  let e := raised_by cmd (spawn w (invoked (trace s) ++ commands pre) cmd) in
  exists (new : list event) (s' : state),
    create_template_body w vm_id (pre ++ (desc, cmd) :: post) s = Normal tt s' /\
    trace s' = trace s ++ new /\
    invoked new = commands pre ++ [cmd] /\
    filter is_error new = [error_line e] /\
    last new (EvUpdate 0) = error_line e /\
    existsb is_success_line new = false.
Proof.
  intros Hall Hcmd Hab e.
  eexists _, _. split; [apply create_template_body_raise; assumption|].
  unfold after. cbn [trace].
  split; [reflexivity|].
  split.
  { rewrite invoked_app, invoked_step_events. reflexivity. }
  split.
  { rewrite filter_app, no_error_in_step_events. reflexivity. }
  split.
  { match goal with
    | |- last (?l ++ [?a; ?b; ?c]) _ = _ =>
        change (l ++ [a; b; c]) with (l ++ [a; b] ++ [c])
    end.
    rewrite app_assoc. apply last_last. }
  rewrite existsb_app, no_success_in_step_events. reflexivity.
Qed.

(** ** The step table *)

Lemma prefix_refl (s : string) : String.prefix s s = true.
Proof.
  induction s as [|a s IH]; [reflexivity|].
  cbn. destruct (ascii_dec a a) as [_|Hne]; [exact IH|now destruct Hne].
Qed.

Lemma contains_app_r (sub a : string) : Py.contains sub (a ++ sub)%string = true.
Proof.
  induction a as [|c a IH].
  - cbn [String.append]. destruct sub as [|c sub]; [reflexivity|].
    cbn [Py.contains]. now rewrite prefix_refl.
  - cbn [String.append Py.contains]. rewrite IH.
    now destruct (String.prefix sub (String c (a ++ sub))).
Qed.

Lemma contains_tag_needs_t (s : string) :
  mentions "t" s = false -> Py.contains "tag=" s = false.
Proof.
  induction s as [|a s IH]; [reflexivity|].
  cbn [mentions Py.contains String.prefix].
  destruct (ascii_dec "t" a); [discriminate|exact IH].
Qed.

Lemma string_of_uint_digits (d : Decimal.uint) :
  mentions "t" (NilEmpty.string_of_uint d) = false.
Proof. induction d; cbn; auto. Qed.

Lemma str_has_no_t (z : Z) : mentions "t" (Py.str z) = false.
Proof.
  unfold Py.str.
  destruct (Z.to_int z) as [d|d]; cbn [NilZero.string_of_int mentions];
    try (destruct (ascii_dec "t" "-") as [Heq|_]; [discriminate Heq|]);
    (destruct d; [reflexivity|apply (string_of_uint_digits (_ d))..]).
Qed.

Lemma str_has_no_tag (z : Z) : Py.contains "tag=" (Py.str z) = false.
Proof. apply contains_tag_needs_t, str_has_no_t. Qed.

(** C3.  Whatever the eight arguments are, the table has exactly seven steps
    and their descriptions are, in this order, those of the steps the
    specification names Create, Configure Network, Set ISO, Configure Boot,
    Configure Cloud-Init, Set Cloud-Init Customization and Creating Template:
    the code prints them as "Creating VM", "Configuring Network",
    "Setting ISO", "Configuring Boot", "Configuring Cloud-Init",
    "Setting Cloud-Init Customization" and "Creating Template". *)
Theorem seven_steps_in_fixed_order
    (vm_id : Z) (vm_name : string) (vm_vlan mem cores : Z)
    (cinit iso_file ostype : string) :
  let st := steps vm_id vm_name vm_vlan mem cores cinit iso_file ostype in
  List.length st = 7%nat /\
  map fst st = map description_of spec_order /\
  map fst st =
    ["Creating VM"; "Configuring Network"; "Setting ISO"; "Configuring Boot";
     "Configuring Cloud-Init"; "Setting Cloud-Init Customization";
     "Creating Template"].
Proof. cbv zeta. repeat split. Qed.

(** C8.  With VLAN 0 the network step's [--net0] value is the bare
    [virtio,bridge=vmbr0] and no argument of the command contains [tag=];
    with a non-zero VLAN that value ends in [,tag=] followed by the VLAN
    number, so the command carries a tag equal to it. *)
Theorem vlan_tag_only_when_nonzero
    (vm_id : Z) (vm_name : string) (vm_vlan mem cores : Z)
    (cinit iso_file ostype : string) :
  let st := steps vm_id vm_name vm_vlan mem cores cinit iso_file ostype in
  let cmd := snd (nth 1 st ("", [])) in
  fst (nth 1 st ("", [])) = "Configuring Network" /\
  (vm_vlan = 0 ->
     nth 4 cmd "" = "virtio,bridge=vmbr0" /\
     Forall (fun a => Py.contains "tag=" a = false) cmd) /\
  (vm_vlan <> 0 ->
     nth 4 cmd "" = ("virtio,bridge=vmbr0,tag=" ++ Py.str vm_vlan)%string /\
     Py.contains ("tag=" ++ Py.str vm_vlan) (nth 4 cmd "") = true).
Proof.
  cbv zeta. cbn [steps nth snd fst]. split; [reflexivity|]. split.
  - intros ->. cbn [Py.truthy_int Z.eqb negb]. split; [reflexivity|].
    repeat constructor; try apply str_has_no_tag.
  - intros Hnz. unfold Py.truthy_int.
    destruct (Z.eqb_spec vm_vlan 0) as [H0|_]; [contradiction|]. cbn [negb].
    split; [reflexivity|].
    change ("virtio,bridge=vmbr0" ++ ",tag=" ++ Py.str vm_vlan)%string
      with ("virtio,bridge=vmbr0," ++ ("tag=" ++ Py.str vm_vlan))%string.
    apply contains_app_r.
Qed.

Lemma vlan_tag_only_when_nonzero_witness :
  (nth 4 (snd (nth 1 (steps 9002 "tmpl-ok" 0 2046 2 "" "/x.iso" "l26") ("", []))) ""
     = "virtio,bridge=vmbr0" /\
   Forall (fun a => Py.contains "tag=" a = false)
     (snd (nth 1 (steps 9002 "tmpl-ok" 0 2046 2 "" "/x.iso" "l26") ("", [])))) /\
  (nth 4 (snd (nth 1 (steps 9002 "tmpl-ok" 42 2046 2 "" "/x.iso" "l26") ("", []))) ""
     = "virtio,bridge=vmbr0,tag=42" /\
   Py.contains "tag=42"
     (nth 4 (snd (nth 1 (steps 9002 "tmpl-ok" 42 2046 2 "" "/x.iso" "l26") ("", []))) "")
     = true).
Proof.
  split.
  - apply (vlan_tag_only_when_nonzero 9002 "tmpl-ok" 0 2046 2 "" "/x.iso" "l26").
    reflexivity.
  - apply (vlan_tag_only_when_nonzero 9002 "tmpl-ok" 42 2046 2 "" "/x.iso" "l26").
    lia.
Defined.

(** ** Running the seven steps *)

(** C9.  The trace of a run is made of one block per processed step: for a
    step with a command, the INFO line "<description> for VM ID <vm_id>",
    then the invocation, then the progress update; for a step with an empty
    command, the progress update alone.  After the blocks comes either the
    success line carrying the VM ID, when all seven commands returned 0, or
    the announcement and invocation of the step that failed, followed by the
    error record. *)
Theorem announce_before_invoke_and_success_line
    (w : World) (vm_id : Z) (vm_name : string) (vm_vlan mem cores : Z)
    (cinit iso_file ostype : string) (s : state) :
  let st := steps vm_id vm_name vm_vlan mem cores cinit iso_file ostype in
  (forall desc cmd,
     step_events vm_id (desc, cmd) =
     if Py.truthy_list cmd
     then [EvLog INFO (desc ++ " for VM ID " ++ Py.str vm_id) []; EvInvoke cmd; EvUpdate 1]
     else [EvUpdate 1]) /\
  exists (k : nat) (tail : list event) (s' : state),
    create_template w vm_id vm_name vm_vlan mem cores cinit iso_file ostype s
      = Normal tt s' /\
    trace s' = trace s ++ flat_map (step_events vm_id) (firstn k st) ++ tail /\
    ((all_succeed w (invoked (trace s)) (commands st) = true /\
      k = 7%nat /\
      tail = [EvLog INFO "Template creation for VM ID %s completed successfully"
                [ArgInt vm_id]])
     \/
     (all_succeed w (invoked (trace s)) (commands st) = false /\
      (k < 7)%nat /\
      exists desc cmd e,
        nth_error st k = Some (desc, cmd) /\
        cmd <> [] /\
        tail = [EvLog INFO (desc ++ " for VM ID " ++ Py.str vm_id) []; EvInvoke cmd;
                error_line e])).
Proof.
  intros st. split.
  { intros desc [|a cmd]; reflexivity. }
  destruct (trace_shape w vm_id st s) as (k & tail & Hrun & Hshape).
  exists k, tail. eexists. split; [exact Hrun|].
  split; [reflexivity|].
  destruct Hshape as [(Hall & -> & ->) | (Hall & Hk & desc & cmd & Hnth & Hcmd & _ & ->)].
  - left. auto.
  - right. split; [exact Hall|]. split; [exact Hk|].
    exists desc, cmd. eexists. split; [exact Hnth|].
    split; [now destruct cmd|reflexivity].
Qed.

(** C2, as the code has it.  When the commands of steps 1 and 2 return 0 and
    the Set ISO command returns a non-zero code, the three commands invoked
    are those of steps 1 to 3, none of the commands of steps 4 to 7 is
    invoked, one error record is logged and it is the CommandFailed one, and
    the progress bar stands at 2 of 7: the update of the failing step is
    skipped with the rest of the loop. *)
Theorem set_iso_failure_stops_run
    (w : World) (vm_id : Z) (vm_name : string) (vm_vlan mem cores : Z)
    (cinit iso_file ostype : string) (s : state) (rc : Z) :
  let st := steps vm_id vm_name vm_vlan mem cores cinit iso_file ostype in
  all_succeed w (invoked (trace s)) (commands (firstn 2 st)) = true ->
  spawn w (invoked (trace s) ++ commands (firstn 2 st)) (snd (nth 2 st ("", [])))
    = Returncode rc ->
  rc <> 0 ->
  fst (nth 2 st ("", [])) = "Setting ISO" /\
  exists (new : list event) (s' : state) (d : event),
    create_template w vm_id vm_name vm_vlan mem cores cinit iso_file ostype s
      = Normal tt s' /\
    trace s' = trace s ++ new /\
    invoked new = map snd (firstn 3 st) /\
    (forall c, In c (commands (skipn 3 st)) -> ~ In c (invoked new)) /\
    filter is_error new = [d] /\
    kind_of_diagnostic d = Some CommandFailed /\
    pbar s' = {| total := 7; n := 2 |}.
Proof.
  intros st Hall Hsp Hrc. split; [reflexivity|].
  assert (Hab : abnormal (spawn w (invoked (trace s) ++ commands (firstn 2 st))
                            (snd (nth 2 st ("", [])))) = true).
  { rewrite Hsp. destruct rc; [contradiction|reflexivity..]. }
  pose proof (create_template_body_raise w vm_id (firstn 2 st) (skipn 3 st)
                (fst (nth 2 st ("", []))) (snd (nth 2 st ("", []))) s
                Hall eq_refl Hab) as Hrun.
  rewrite Hsp in Hrun.
  eexists _, _, _. split; [exact Hrun|].
  unfold after. cbn [trace pbar].
  split; [reflexivity|].
  split.
  { rewrite invoked_app, invoked_step_events. reflexivity. }
  split.
  { intros c Hin Hin'. rewrite invoked_app, invoked_step_events in Hin'.
    subst st. destruct cinit;
      cbn [steps commands map filter snd skipn firstn nth In Py.truthy_list
           Py.truthy_str app invoked flat_map] in Hin, Hin';
      repeat (destruct Hin as [<-|Hin]; [|]);
      try contradiction;
      repeat (destruct Hin' as [Heq|Hin']; [discriminate Heq|]);
      contradiction. }
  split.
  { rewrite filter_app, no_error_in_step_events. reflexivity. }
  split; reflexivity.
Qed.

Lemma set_iso_failure_stops_run_witness :
  fst (nth 2 (steps 9001 "tmpl-test" 0 2046 2 "" "/nonexistent.iso" "l26") ("", []))
    = "Setting ISO" /\
  exists (new : list event) (s' : state) (d : event),
    create_template Sample.bad_iso 9001 "tmpl-test" 0 2046 2 "" "/nonexistent.iso" "l26"
      init_state = Normal tt s' /\
    trace s' = trace init_state ++ new /\
    invoked new =
      map snd (firstn 3 (steps 9001 "tmpl-test" 0 2046 2 "" "/nonexistent.iso" "l26")) /\
    (forall c,
       In c (commands (skipn 3 (steps 9001 "tmpl-test" 0 2046 2 "" "/nonexistent.iso" "l26")))
       -> ~ In c (invoked new)) /\
    filter is_error new = [d] /\
    kind_of_diagnostic d = Some CommandFailed /\
    pbar s' = {| total := 7; n := 2 |}.
Proof.
  apply (set_iso_failure_stops_run Sample.bad_iso 9001 "tmpl-test" 0 2046 2 ""
           "/nonexistent.iso" "l26" init_state 255).
  - reflexivity.
  - reflexivity.
  - lia.
Defined.

(** C2 as stated fails: in the scenario of the specification (VM 9001, the
    tool rejecting the ISO at step 3) steps 1 and 2 succeed, step 3 returns a
    non-zero code, and the bar stops at 2 of 7, not at 3. *)
Lemma set_iso_failure_progress_is_not_three :
  all_succeed Sample.bad_iso [] (commands (firstn 2 Sample.table_9001)) = true /\
  spawn Sample.bad_iso (commands (firstn 2 Sample.table_9001))
    (snd (nth 2 Sample.table_9001 ("", []))) = Returncode 255 /\
  create_template Sample.bad_iso 9001 "tmpl-test" 0 2046 2 "" "/nonexistent.iso" "l26"
    init_state
  = Normal tt
      {| trace :=
           flat_map (step_events 9001) (firstn 2 Sample.table_9001) ++
           [announce 9001 "Setting ISO";
            EvInvoke (snd (nth 2 Sample.table_9001 ("", [])));
            EvLog ERROR "An error occurred while creating the template: %s"
              [ArgExc (RaiseCalledProcessError 255
                         (snd (nth 2 Sample.table_9001 ("", []))))]];
         pbar := {| total := 7; n := 2 |} |} /\
  n (pbar (final_state
             (create_template Sample.bad_iso 9001 "tmpl-test" 0 2046 2 ""
                "/nonexistent.iso" "l26" init_state))) <> 3%nat.
Proof.
  repeat split; try reflexivity.
  vm_compute. discriminate.
Qed.

Lemma fail_fast_stops_at_first_failure_witness :
  exists (new : list event) (s' : state),
    create_template_body Sample.third_fails 9001 Sample.table_9001 init_state
      = Normal tt s' /\
    trace s' = trace init_state ++ new /\
    invoked new =
      commands (firstn 2 Sample.table_9001) ++ [snd (nth 2 Sample.table_9001 ("", []))] /\
    filter is_error new =
      [error_line (raised_by (snd (nth 2 Sample.table_9001 ("", []))) (Returncode 1))] /\
    last new (EvUpdate 0) =
      error_line (raised_by (snd (nth 2 Sample.table_9001 ("", []))) (Returncode 1)) /\
    existsb is_success_line new = false.
Proof.
  apply (fail_fast_stops_at_first_failure Sample.third_fails 9001
           (firstn 2 Sample.table_9001) (skipn 3 Sample.table_9001)
           (fst (nth 2 Sample.table_9001 ("", []))) (snd (nth 2 Sample.table_9001 ("", [])))
           init_state).
  - reflexivity.
  - reflexivity.
  - reflexivity.
Defined.

(** C5, as the code has it.  When a step's command ends abnormally, the run
    logs exactly one error record and that record carries exactly one of the
    three kinds: CommandFailed when the command ran and returned a non-zero
    code, ExecutableMissing when the launch raised [FileNotFoundError], and
    UnclassifiedFailure for every other exception, that is, one that is an
    instance of neither [CalledProcessError] nor [FileNotFoundError]; a
    launch refused for another reason (permission denied, not a directory,
    a file that is no executable) is among these.  The kind is read off the
    message of the record, so two failures of different kinds never share a
    diagnostic. *)
Theorem failure_is_classified
    (w : World) (vm_id : Z) (pre post : list step) (desc : string)
    (cmd : list string) (s : state) :
  let o := spawn w (invoked (trace s) ++ commands pre) cmd in
  all_succeed w (invoked (trace s)) (commands pre) = true ->
  Py.truthy_list cmd = true ->
  abnormal o = true ->
  exists (new : list event) (s' : state) (d : event) (k : failure_kind),
    create_template_body w vm_id (pre ++ (desc, cmd) :: post) s = Normal tt s' /\
    trace s' = trace s ++ new /\
    filter is_error new = [d] /\
    kind_of_diagnostic d = Some k /\
    (forall rc, o = Returncode rc -> k = CommandFailed) /\
    (forall detail, o = LaunchError FileNotFoundError detail -> k = ExecutableMissing) /\
    (forall c detail,
       o = LaunchError c detail ->
       issubclass c CalledProcessError = false ->
       issubclass c FileNotFoundError = false ->
       k = UnclassifiedFailure).
Proof.
  intros o Hall Hcmd Hab.
  eexists _, _, _, _. split; [apply create_template_body_raise; assumption|].
  unfold after. cbn [trace].
  split; [reflexivity|].
  split; [rewrite filter_app, no_error_in_step_events; reflexivity|].
  split; [apply kind_of_error_line|].
  fold o. repeat split.
  - intros rc ->. reflexivity.
  - intros detail ->. reflexivity.
  - intros c detail -> Hc Hf. unfold isinstance. cbn [raised_by type_of].
    now rewrite Hc, Hf.
Qed.

Lemma failure_is_classified_witness :
  exists (new : list event) (s' : state) (d : event) (k : failure_kind),
    create_template_body Sample.no_qm 9002 Sample.table_9002 init_state = Normal tt s' /\
    trace s' = trace init_state ++ new /\
    filter is_error new = [d] /\
    kind_of_diagnostic d = Some k /\
    (forall rc,
       LaunchError FileNotFoundError "[Errno 2] No such file or directory: 'qm'"
         = Returncode rc -> k = CommandFailed) /\
    (forall detail,
       LaunchError FileNotFoundError "[Errno 2] No such file or directory: 'qm'"
         = LaunchError FileNotFoundError detail -> k = ExecutableMissing) /\
    (forall c detail,
       LaunchError FileNotFoundError "[Errno 2] No such file or directory: 'qm'"
         = LaunchError c detail ->
       issubclass c CalledProcessError = false ->
       issubclass c FileNotFoundError = false ->
       k = UnclassifiedFailure).
Proof.
  apply (failure_is_classified Sample.no_qm 9002 [] (skipn 1 Sample.table_9002)
           (fst (nth 0 Sample.table_9002 ("", []))) (snd (nth 0 Sample.table_9002 ("", [])))
           init_state).
  - reflexivity.
  - reflexivity.
  - reflexivity.
Defined.

(** C5 as stated fails: a [qm] that is found but may not be executed cannot
    be launched at all, yet the run does not report ExecutableMissing.  The
    launch raises [PermissionError], which only the last [except] clause
    catches, so the record is the UnclassifiedFailure one. *)
Lemma launch_refused_is_not_executable_missing :
  spawn Sample.locked_qm [] (snd (nth 0 Sample.table_9002 ("", [])))
    = LaunchError PermissionError "[Errno 13] Permission denied: 'qm'" /\
  create_template Sample.locked_qm 9002 "tmpl-ok" 0 2046 2 "" "/x.iso" "l26" init_state
    = Normal tt
        {| trace :=
             [announce 9002 "Creating VM";
              EvInvoke (snd (nth 0 Sample.table_9002 ("", [])));
              EvLog ERROR "An unexpected error occurred: %s"
                [ArgExc (RaiseOther PermissionError "[Errno 13] Permission denied: 'qm'")]];
           pbar := {| total := 7; n := 0 |} |} /\
  kind_of_diagnostic
    (EvLog ERROR "An unexpected error occurred: %s"
       [ArgExc (RaiseOther PermissionError "[Errno 13] Permission denied: 'qm'")])
    = Some UnclassifiedFailure /\
  Some UnclassifiedFailure <> Some ExecutableMissing.
Proof. repeat split; try reflexivity. discriminate. Qed.

(** A [qm] that exists but may not be executed is not a missing executable:
    the launch raises [PermissionError], which only the last clause catches. *)
Example permission_denied_is_unclassified :
  option_map kind_of_diagnostic
    (last_error (trace (final_state
       (create_template Sample.locked_qm 9002 "tmpl-ok" 0 2046 2 "" "/x.iso" "l26"
          init_state))))
  = Some (Some UnclassifiedFailure).
Proof. reflexivity. Qed.

(** The successful scenario of the specification: all seven slots are
    processed, the bar ends at 7 of 7 and the success line closes the trace. *)
Example healthy_run_reaches_seven_of_seven :
  create_template Sample.healthy 9002 "tmpl-ok" 0 2046 2 "" "/x.iso" "l26" init_state
  = Normal tt
      {| trace := flat_map (step_events 9002) Sample.table_9002 ++ [success_line 9002];
         pbar := {| total := 7; n := 7 |} |}.
Proof. reflexivity. Qed.

(** C4.  With an empty snippet name the sixth slot holds the empty command,
    which leaves nothing but its progress update in the trace; the table
    still has seven slots and the bar a total of seven.  The counter equals
    the number [k] of slots processed in full, the commands invoked are an
    initial part of the six real commands, and the counter is at 7 exactly
    when all of them returned 0, in which case the trace holds the blocks of
    all seven slots, the empty one included, before the success line. *)
Theorem empty_snippet_slot_is_kept
    (w : World) (vm_id : Z) (vm_name : string) (vm_vlan mem cores : Z)
    (iso_file ostype : string) (s : state) :
  let st := steps vm_id vm_name vm_vlan mem cores "" iso_file ostype in
  nth_error st 5 = Some ("Setting Cloud-Init Customization", []) /\
  step_events vm_id ("Setting Cloud-Init Customization", []) = [EvUpdate 1] /\
  List.length st = 7%nat /\
  List.length (commands st) = 6%nat /\
  exists (k : nat) (new : list event) (s' : state),
    create_template w vm_id vm_name vm_vlan mem cores "" iso_file ostype s
      = Normal tt s' /\
    trace s' = trace s ++ new /\
    pbar s' = {| total := 7; n := k |} /\
    (k <= 7)%nat /\
    List.length (filter is_update new) = k /\
    (exists tail, new = flat_map (step_events vm_id) (firstn k st) ++ tail) /\
    (exists j, invoked new = firstn j (commands st)) /\
    ~ In [] (invoked new) /\
    (k = 7%nat <-> all_succeed w (invoked (trace s)) (commands st) = true) /\
    (k = 7%nat -> new = flat_map (step_events vm_id) st ++ [success_line vm_id]).
Proof.
  intros st. repeat (split; [reflexivity|]).
  destruct (trace_shape w vm_id st s) as (k & tail & Hrun & Hshape).
  exists k, (flat_map (step_events vm_id) (firstn k st) ++ tail). eexists.
  split; [exact Hrun|]. unfold after. cbn [trace pbar].
  split; [reflexivity|]. split; [reflexivity|].
  assert (Hprefix : (exists j, invoked (flat_map (step_events vm_id) (firstn k st) ++ tail)
                               = firstn j (commands st)) ->
                    ~ In [] (invoked (flat_map (step_events vm_id) (firstn k st) ++ tail))).
  { intros [j ->] Hin. apply in_firstn, filter_In in Hin. now destruct Hin. }
  destruct Hshape as [(Hall & -> & ->) | (Hall & Hk & desc & cmd & Hnth & Hcmd & _ & ->)].
  - change (List.length st) with 7%nat. change (firstn 7 st) with st.
    split; [lia|].
    split; [rewrite filter_app, length_app, filter_count_updates; reflexivity|].
    split; [eexists; reflexivity|].
    assert (Hj : exists j, invoked (flat_map (step_events vm_id) st ++ [success_line vm_id])
                           = firstn j (commands st))
      by (exists 6%nat; rewrite invoked_app, invoked_step_events; reflexivity).
    split; [exact Hj|]. split; [exact (Hprefix Hj)|].
    split; [tauto|reflexivity].
  - change (List.length st) with 7%nat in Hk.
    split; [lia|].
    split.
    { rewrite filter_app, length_app, filter_count_updates.
      rewrite length_firstn. change (List.length st) with 7%nat. cbn. lia. }
    split; [eexists; reflexivity|].
    match goal with |- (exists j, ?x = _) /\ _ =>
      assert (Hj : exists j, x = firstn j (commands st)) end.
    { rewrite invoked_app, invoked_step_events.
      clear Hrun Hall Hprefix.
      destruct k as [|[|[|[|[|[|[|k]]]]]]]; try lia;
        cbn in Hnth; injection Hnth as <- <-; try discriminate Hcmd.
      - exists 1%nat. reflexivity.
      - exists 2%nat. reflexivity.
      - exists 3%nat. reflexivity.
      - exists 4%nat. reflexivity.
      - exists 5%nat. reflexivity.
      - exists 6%nat. reflexivity. }
    split; [exact Hj|]. split; [exact (Hprefix Hj)|].
    split.
    + rewrite Hall. split; [lia|discriminate].
    + lia.
Qed.

(** ** Validation in [main] *)

Lemma main_name_with_space (w : World) (args : Namespace) (s : state) :
  Py.contains " " (name args) = true ->
  main w args s =
  Exited 0 (emit (EvLog ERROR "VM name contains spaces. Please use a name without spaces." [])
              s).
Proof. intros Hsp. unfold main, bind at 1. rewrite Hsp. reflexivity. Qed.

(** The two sibling checks leave with status 1 and nothing invoked. *)
Lemma main_iso_not_found (w : World) (args : Namespace) (s : state) :
  Py.contains " " (name args) = false ->
  Py.isabs (iso args) = true ->
  path_exists w (iso args) = false ->
  path_exists w (Py.join iso_dir (Py.basename (iso args))) = false ->
  exists s', main w args s = Exited 1 s' /\ invoked (trace s') = invoked (trace s).
Proof.
  intros Hsp Habs Hex Hex'. unfold main, bind, ret, logging_info, logging_error, sys_exit.
  rewrite Hsp, Habs. cbn [negb]. rewrite Hex. cbn [negb]. rewrite Hex'.
  eexists. split; [reflexivity|].
  unfold emit. cbn [trace]. rewrite !invoked_app. cbn. now rewrite !app_nil_r.
Qed.

Lemma main_snippet_not_found (w : World) (args : Namespace) (s : state) :
  Py.contains " " (name args) = false ->
  Py.isabs (iso args) = true ->
  path_exists w (iso args) = true ->
  Py.truthy_str (cinit args) = true ->
  path_exists w (Py.join snippets_dir (cinit args)) = false ->
  exists s', main w args s = Exited 1 s' /\ invoked (trace s') = invoked (trace s).
Proof.
  intros Hsp Habs Hex Hci Hex'.
  unfold main, bind, ret, logging_info, logging_error, sys_exit.
  rewrite Hsp, Habs. cbn [negb]. rewrite Hex. cbn [negb]. rewrite Hci, Hex'. cbn [negb].
  eexists. split; [reflexivity|].
  unfold emit. cbn [trace]. rewrite !invoked_app. cbn. now rewrite !app_nil_r.
Qed.

(** C6 at the failing input.  With the name "my vm" the run is aborted before
    any command is invoked, but through [sys.exit()] without an argument: the
    exit status is 0, where the ISO and snippet checks exit with 1. *)
Theorem name_with_space_exits_with_status_zero :
  Py.contains " " (name Sample.args_with_space) = true /\
  main Sample.healthy Sample.args_with_space init_state =
  Exited 0
    {| trace := [EvLog ERROR "VM name contains spaces. Please use a name without spaces." []];
       pbar := {| total := 0; n := 0 |} |}.
Proof. split; reflexivity. Qed.

(* ================================================================= *)
(** * Further properties of the run *)

(** ** Every run, by cases *)

Lemma no_success_filter_step_events (vm_id : Z) (l : list step) :
  filter is_success_line (flat_map (step_events vm_id) l) = [].
Proof.
  induction l as [|[d [|a c]] l IH]; [reflexivity| |];
    cbn [flat_map]; rewrite filter_app, IH; reflexivity.
Qed.

Lemma firstn_succ_length_app {A : Type} (a b : list A) (x : A) :
  firstn (List.length a + 1) (a ++ x :: b) = a ++ [x].
Proof. rewrite firstn_app_2. reflexivity. Qed.

Lemma commands_nonempty (l : list step) (c : list string) : In c (commands l) -> c <> [].
Proof.
  unfold commands. intros Hin. apply filter_In in Hin as [_ Hc]. now destruct c.
Qed.

(** The run either processes every slot and logs the success line, or stops
    at slot [k], the first whose command ends abnormally. *)
Lemma run_cases (w : World) (vm_id : Z) (stps : list step) (s : state) :
  (all_succeed w (invoked (trace s)) (commands stps) = true /\
   create_template_body w vm_id stps s =
     Normal tt (after s (flat_map (step_events vm_id) stps ++ [success_line vm_id])
                  (List.length stps) (List.length stps)))
  \/
  (exists (k : nat) (desc : string) (cmd : list string),
     all_succeed w (invoked (trace s)) (commands stps) = false /\
     (k < List.length stps)%nat /\
     stps = firstn k stps ++ (desc, cmd) :: skipn (S k) stps /\
     nth_error stps k = Some (desc, cmd) /\
     all_succeed w (invoked (trace s)) (commands (firstn k stps)) = true /\
     Py.truthy_list cmd = true /\
     abnormal (spawn w (invoked (trace s) ++ commands (firstn k stps)) cmd) = true /\
     create_template_body w vm_id stps s =
       Normal tt
         (after s
            (flat_map (step_events vm_id) (firstn k stps) ++
             [announce vm_id desc; EvInvoke cmd;
              error_line (raised_by cmd
                (spawn w (invoked (trace s) ++ commands (firstn k stps)) cmd))])
            (List.length stps) k)).
Proof.
  destruct (first_failure w vm_id stps (invoked (trace s)))
    as [Hall | (pre & desc & cmd & post & Heq & Hall & Hcmd & Hab)].
  - left. split; [exact Hall|now apply create_template_body_ok].
  - right. exists (List.length pre), desc, cmd.
    assert (Hpre : firstn (List.length pre) stps = pre)
      by (rewrite Heq; apply firstn_length_app).
    assert (Hnth : nth_error stps (List.length pre) = Some (desc, cmd))
      by (rewrite Heq; apply nth_error_length_app).
    split; [rewrite Heq; now apply all_succeed_false_at|].
    split; [rewrite Heq, length_app; cbn; lia|].
    split; [symmetry; now apply firstn_skipn_middle|].
    split; [exact Hnth|].
    rewrite Hpre.
    split; [exact Hall|]. split; [exact Hcmd|]. split; [exact Hab|].
    rewrite Heq at 1 2. now apply create_template_body_raise.
Qed.

Lemma create_template_body_total (w : World) (vm_id : Z) (stps : list step) (s : state) :
  exists s', create_template_body w vm_id stps s = Normal tt s' /\
             total (pbar s') = List.length stps.
Proof.
  destruct (run_cases w vm_id stps s) as [[_ Hrun] | (k & d & c & _ & _ & _ & _ & _ & _ & _ & Hrun)];
    eexists; (split; [exact Hrun|reflexivity]).
Qed.

(** X1.  Whatever the step table and the world, a run closes with exactly one
    of two records: when every command returns 0 it logs no error and the
    success line once, as its last event; otherwise it logs exactly one error
    record, as its last event, and never the success line. *)
Theorem run_closes_with_success_or_one_error
    (w : World) (vm_id : Z) (stps : list step) (s : state) :
  exists (new : list event) (s' : state),
    create_template_body w vm_id stps s = Normal tt s' /\
    trace s' = trace s ++ new /\
    if all_succeed w (invoked (trace s)) (commands stps)
    then filter is_error new = [] /\
         filter is_success_line new = [success_line vm_id] /\
         last new (EvUpdate 0) = success_line vm_id
    else List.length (filter is_error new) = 1%nat /\
         filter is_success_line new = [] /\
         is_error (last new (EvUpdate 0)) = true.
Proof.
  destruct (run_cases w vm_id stps s)
    as [[Hall Hrun] | (k & desc & cmd & Hall & _ & _ & _ & _ & _ & _ & Hrun)];
    rewrite Hall; eexists _, _; (split; [exact Hrun|]); unfold after; cbn [trace];
    (split; [reflexivity|]).
  - rewrite !filter_app, no_error_in_step_events, no_success_filter_step_events.
    split; [reflexivity|]. split; [reflexivity|]. apply last_last.
  - rewrite !filter_app, no_error_in_step_events, no_success_filter_step_events.
    split; [reflexivity|]. split; [reflexivity|].
    match goal with
    | |- is_error (last (?l ++ [?a; ?b; ?c]) _) = _ =>
        change (l ++ [a; b; c]) with (l ++ [a; b] ++ [c])
    end.
    rewrite app_assoc, last_last. reflexivity.
Qed.

(** X2.  The bar is created with one slot per step, and when the run is over
    its counter is the number of progress updates made, never more than the
    total; it reaches the total exactly when every command returned 0. *)
Theorem progress_counts_completed_slots
    (w : World) (vm_id : Z) (stps : list step) (s : state) :
  exists (new : list event) (s' : state),
    create_template_body w vm_id stps s = Normal tt s' /\
    trace s' = trace s ++ new /\
    total (pbar s') = List.length stps /\
    n (pbar s') = List.length (filter is_update new) /\
    (n (pbar s') <= total (pbar s'))%nat /\
    (n (pbar s') = total (pbar s') <->
     all_succeed w (invoked (trace s)) (commands stps) = true).
Proof.
  destruct (run_cases w vm_id stps s)
    as [[Hall Hrun] | (k & desc & cmd & Hall & Hk & _ & _ & _ & _ & _ & Hrun)];
    eexists _, _; (split; [exact Hrun|]); unfold after; cbn [trace pbar total n];
    (split; [reflexivity|]); (split; [reflexivity|]).
  - split; [rewrite filter_app, length_app, filter_count_updates; cbn; lia|].
    split; [lia|tauto].
  - split.
    { rewrite filter_app, length_app, filter_count_updates, length_firstn. cbn. lia. }
    split; [lia|]. rewrite Hall. split; [lia|discriminate].
Qed.

(** X3.  The commands handed to [check_call] during a run are an initial part
    of the non-empty commands of the table, in table order: nothing outside
    the table is run, nothing is run twice or out of order, and the empty
    command of a skipped step is never invoked.  When every command returns 0
    they are all invoked. *)
Theorem commands_run_in_table_order
    (w : World) (vm_id : Z) (stps : list step) (s : state) :
  exists (new : list event) (s' : state) (j : nat),
    create_template_body w vm_id stps s = Normal tt s' /\
    trace s' = trace s ++ new /\
    invoked new = firstn j (commands stps) /\
    ~ In [] (invoked new) /\
    (all_succeed w (invoked (trace s)) (commands stps) = true ->
     invoked new = commands stps).
Proof.
  assert (Hno : forall j, ~ In [] (firstn j (commands stps))).
  { intros j Hin. apply in_firstn, commands_nonempty in Hin. now apply Hin. }
  destruct (run_cases w vm_id stps s)
    as [[Hall Hrun] | (k & desc & cmd & Hall & Hk & Hsplit & _ & _ & Hcmd & _ & Hrun)].
  - eexists _, _, (List.length (commands stps)). split; [exact Hrun|].
    unfold after. cbn [trace]. split; [reflexivity|].
    assert (Hinv : invoked (flat_map (step_events vm_id) stps ++ [success_line vm_id])
                   = commands stps).
    { rewrite invoked_app, invoked_step_events. cbn. apply app_nil_r. }
    rewrite Hinv, firstn_all. split; [reflexivity|].
    split; [|reflexivity]. rewrite <- (firstn_all (commands stps)). apply Hno.
  - eexists _, _, (List.length (commands (firstn k stps)) + 1)%nat.
    split; [exact Hrun|]. unfold after. cbn [trace]. split; [reflexivity|].
    assert (Hinv : invoked (flat_map (step_events vm_id) (firstn k stps) ++
                            [announce vm_id desc; EvInvoke cmd;
                             error_line (raised_by cmd
                               (spawn w (invoked (trace s) ++ commands (firstn k stps)) cmd))])
                   = firstn (List.length (commands (firstn k stps)) + 1) (commands stps)).
    { rewrite invoked_app, invoked_step_events.
      assert (Hc : commands stps =
                   commands (firstn k stps) ++ cmd :: commands (skipn (S k) stps)).
      { transitivity (commands (firstn k stps ++ (desc, cmd) :: skipn (S k) stps));
          [now rewrite <- Hsplit|].
        rewrite commands_app. f_equal. unfold commands. cbn [map filter snd].
        now rewrite Hcmd. }
      rewrite Hc, firstn_succ_length_app. reflexivity. }
    rewrite Hinv. split; [reflexivity|]. split; [apply Hno|].
    rewrite Hall. discriminate.
Qed.

(** ** The seven commands *)

Lemma in_commands_firstn (k : nat) (stps : list step) (c : list string) :
  In c (commands (firstn k stps)) -> In c (commands stps).
Proof.
  unfold commands. rewrite !filter_In, !in_map_iff.
  intros [(st & Hst & Hin) Hc]. split; [|exact Hc].
  exists st. split; [exact Hst|now apply in_firstn with k].
Qed.

(** Whatever is invoked is a command of the table. *)
Lemma invoked_in_commands (w : World) (vm_id : Z) (stps : list step) (s : state) :
  exists (new : list event) (s' : state),
    create_template_body w vm_id stps s = Normal tt s' /\
    trace s' = trace s ++ new /\
    forall c, In c (invoked new) -> In c (commands stps).
Proof.
  destruct (run_cases w vm_id stps s)
    as [[Hall Hrun] | (k & desc & cmd & _ & _ & _ & Hnth & _ & Hcmd & _ & Hrun)];
    eexists _, _; (split; [exact Hrun|]); unfold after; cbn [trace];
    (split; [reflexivity|]); intros c; rewrite invoked_app, invoked_step_events.
  - cbn. now rewrite app_nil_r.
  - intros Hin. apply in_app_or in Hin as [Hin|Hin]; [now apply in_commands_firstn with k|].
    cbn in Hin. destruct Hin as [<-|[]].
    unfold commands. apply filter_In. split; [|exact Hcmd].
    apply in_map_iff. exists (desc, cmd). split; [reflexivity|].
    now apply nth_error_In with k.
Qed.

(** X4.  Every command a run of [create_template] invokes is a [qm] command,
    its subcommand is [create], [set] or [template], and its third word is
    the decimal VM ID: the run touches no other tool and no other VM. *)
Theorem every_command_targets_the_vm
    (w : World) (vm_id : Z) (vm_name : string) (vm_vlan mem cores : Z)
    (cinit iso_file ostype : string) (s : state) :
  exists (new : list event) (s' : state),
    create_template w vm_id vm_name vm_vlan mem cores cinit iso_file ostype s
      = Normal tt s' /\
    trace s' = trace s ++ new /\
    Forall (fun c => nth 0 c "" = "qm" /\
                     In (nth 1 c "") ["create"; "set"; "template"] /\
                     nth 2 c "" = Py.str vm_id)
           (invoked new).
Proof.
  unfold create_template.
  destruct (invoked_in_commands w vm_id
              (steps vm_id vm_name vm_vlan mem cores cinit iso_file ostype) s)
    as (new & s' & Hrun & Htr & Hin).
  exists new, s'. split; [exact Hrun|]. split; [exact Htr|].
  apply Forall_forall. intros c Hc. apply Hin in Hc. clear Hin Hrun Htr.
  destruct cinit;
    cbn [steps commands map filter snd Py.truthy_list Py.truthy_str In] in Hc;
    repeat (destruct Hc as [<-|Hc]; [cbn [nth In]; auto 6|]);
    contradiction.
Qed.

(** X5.  [qm template], the step that freezes the VM, is invoked only when
    every command before it has returned 0, and then all the commands of the
    table have been invoked, in order. *)
Theorem template_only_after_all_the_rest
    (w : World) (vm_id : Z) (vm_name : string) (vm_vlan mem cores : Z)
    (cinit iso_file ostype : string) (s : state) :
  let st := steps vm_id vm_name vm_vlan mem cores cinit iso_file ostype in
  exists (new : list event) (s' : state),
    create_template w vm_id vm_name vm_vlan mem cores cinit iso_file ostype s
      = Normal tt s' /\
    trace s' = trace s ++ new /\
    (In ["qm"; "template"; Py.str vm_id] (invoked new) ->
     invoked new = commands st /\
     last (invoked new) [] = ["qm"; "template"; Py.str vm_id] /\
     all_succeed w (invoked (trace s)) (commands (firstn 6 st)) = true).
Proof.
  intros st. unfold create_template. fold st.
  assert (Hlast : commands st = commands (firstn 6 st) ++ [["qm"; "template"; Py.str vm_id]])
    by (subst st; destruct cinit; reflexivity).
  destruct (run_cases w vm_id st s)
    as [[Hall Hrun] | (k & desc & cmd & _ & Hk & _ & Hnth & Hpre & Hcmd & _ & Hrun)];
    eexists _, _; (split; [exact Hrun|]); unfold after; cbn [trace];
    (split; [reflexivity|]); rewrite invoked_app, invoked_step_events; intros Hin.
  - cbn [invoked flat_map success_line]. rewrite app_nil_r.
    split; [reflexivity|]. rewrite Hlast at 1. rewrite last_last.
    split; [reflexivity|].
    rewrite Hlast, all_succeed_app in Hall. now apply andb_true_iff in Hall.
  - change (List.length st) with 7%nat in Hk.
    cbn [invoked flat_map announce error_line app] in Hin |- *.
    destruct k as [|[|[|[|[|[|[|k]]]]]]]; try lia.
    7:{ cbn in Hnth. injection Hnth as <- <-.
        rewrite <- Hlast. split; [reflexivity|].
        rewrite Hlast at 1. rewrite last_last. split; [reflexivity|exact Hpre]. }
    all: exfalso; clear Hrun Hpre Hlast; subst st; destruct cinit;
      cbn [steps nth_error] in Hnth; injection Hnth as <- <-;
      try discriminate Hcmd;
      cbn [steps commands map filter snd firstn Py.truthy_list Py.truthy_str app In] in Hin;
      repeat (destruct Hin as [Heq|Hin]; [discriminate Heq|]);
      contradiction.
Qed.

(** X6.  When every command returns 0, a run given a snippet name invokes
    seven commands, the sixth being [qm set <id> --cicustom
    user=local:snippets/<name>]; a run without one invokes six, the sixth
    being [qm template <id>]. *)
Theorem snippet_decides_six_or_seven_commands
    (w : World) (vm_id : Z) (vm_name : string) (vm_vlan mem cores : Z)
    (cinit iso_file ostype : string) (s : state) :
  let st := steps vm_id vm_name vm_vlan mem cores cinit iso_file ostype in
  all_succeed w (invoked (trace s)) (commands st) = true ->
  exists (new : list event) (s' : state),
    create_template w vm_id vm_name vm_vlan mem cores cinit iso_file ostype s
      = Normal tt s' /\
    trace s' = trace s ++ new /\
    invoked new = commands st /\
    List.length (invoked new) = (if Py.truthy_str cinit then 7 else 6)%nat /\
    nth_error (invoked new) 5 =
      Some (if Py.truthy_str cinit
            then ["qm"; "set"; Py.str vm_id; "--cicustom";
                  ("user=local:snippets/" ++ cinit)%string]
            else ["qm"; "template"; Py.str vm_id]).
Proof.
  intros st Hall. unfold create_template. fold st.
  eexists _, _. split; [now apply create_template_body_ok|].
  unfold after. cbn [trace]. split; [reflexivity|].
  rewrite invoked_app, invoked_step_events. cbn [invoked flat_map success_line].
  rewrite app_nil_r. split; [reflexivity|].
  subst st. destruct cinit; split; reflexivity.
Qed.

Lemma snippet_decides_six_or_seven_commands_witness :
  exists (new : list event) (s' : state),
    create_template Sample.healthy 9002 "tmpl-ok" 0 2046 2 "user.yaml" "/x.iso" "l26"
      init_state = Normal tt s' /\
    trace s' = trace init_state ++ new /\
    invoked new = commands (steps 9002 "tmpl-ok" 0 2046 2 "user.yaml" "/x.iso" "l26") /\
    List.length (invoked new) = (if Py.truthy_str "user.yaml" then 7 else 6)%nat /\
    nth_error (invoked new) 5 =
      Some (if Py.truthy_str "user.yaml"
            then ["qm"; "set"; Py.str 9002; "--cicustom";
                  ("user=local:snippets/" ++ "user.yaml")%string]
            else ["qm"; "template"; Py.str 9002]).
Proof.
  apply (snippet_decides_six_or_seven_commands Sample.healthy 9002 "tmpl-ok" 0 2046 2
           "user.yaml" "/x.iso" "l26" init_state).
  reflexivity.
Defined.

(** ** Running twice *)

Lemma first_command_is_create
    (w : World) (vm_id : Z) (vm_name : string) (vm_vlan mem cores : Z)
    (cinit iso_file ostype : string) (s s' : state) :
  create_template w vm_id vm_name vm_vlan mem cores cinit iso_file ostype s
    = Normal tt s' ->
  In ["qm"; "create"; Py.str vm_id; "--name"; vm_name; "--ostype"; ostype; "--tablet"; "0"]
     (invoked (trace s')).
Proof.
  unfold create_template.
  set (st := steps vm_id vm_name vm_vlan mem cores cinit iso_file ostype).
  destruct (run_cases w vm_id st s)
    as [[Hall Hrun] | (k & desc & cmd & _ & Hk & _ & Hnth & _ & _ & _ & Hrun)];
    intros Heq;
    match type of Hrun with _ = Normal tt ?x => assert (Hs : s' = x) by congruence end;
    rewrite Hs; unfold after; cbn [trace];
    rewrite !invoked_app, invoked_step_events; apply in_or_app; right.
  - apply in_or_app. left. subst st. left. reflexivity.
  - destruct k as [|k].
    + cbn in Hnth. injection Hnth as <- <-. apply in_or_app. right. left. reflexivity.
    + apply in_or_app. left. subst st. left. reflexivity.
Qed.

(** X7.  A run does not resume: run again with the same arguments, it starts
    over from [qm create].  So under a hypervisor that refuses to create a VM
    it has already been asked to create, the second run invokes that one
    command, logs one error and stops with the bar at 0 of 7. *)
Theorem rerun_stops_at_create
    (w : World) (vm_id : Z) (vm_name : string) (vm_vlan mem cores : Z)
    (cinit iso_file ostype : string) (s0 s1 : state) :
  let create :=
    ["qm"; "create"; Py.str vm_id; "--name"; vm_name; "--ostype"; ostype; "--tablet"; "0"] in
  (forall hist, In create hist -> abnormal (spawn w hist create) = true) ->
  create_template w vm_id vm_name vm_vlan mem cores cinit iso_file ostype s0
    = Normal tt s1 ->
  exists s2 : state,
    create_template w vm_id vm_name vm_vlan mem cores cinit iso_file ostype s1
      = Normal tt s2 /\
    trace s2 = trace s1 ++
               [announce vm_id "Creating VM"; EvInvoke create;
                error_line (raised_by create (spawn w (invoked (trace s1)) create))] /\
    pbar s2 = {| total := 7; n := 0 |}.
Proof.
  intros create Hdup Hfirst.
  apply first_command_is_create in Hfirst. fold create in Hfirst.
  pose proof (create_template_body_raise w vm_id [] 
                (skipn 1 (steps vm_id vm_name vm_vlan mem cores cinit iso_file ostype))
                "Creating VM" create s1 eq_refl eq_refl) as Hrun.
  cbn [commands map filter app] in Hrun. rewrite app_nil_r in Hrun.
  specialize (Hrun (Hdup _ Hfirst)).
  eexists. split; [exact Hrun|]. split; reflexivity.
Qed.

Lemma rerun_stops_at_create_witness :
  exists s2 : state,
    create_template Sample.rejects_repeats 9002 "tmpl-ok" 0 2046 2 "" "/x.iso" "l26"
      (final_state (create_template Sample.rejects_repeats 9002 "tmpl-ok" 0 2046 2 ""
                      "/x.iso" "l26" init_state))
      = Normal tt s2 /\
    trace s2 =
      trace (final_state (create_template Sample.rejects_repeats 9002 "tmpl-ok" 0 2046 2 ""
                            "/x.iso" "l26" init_state)) ++
      [announce 9002 "Creating VM";
       EvInvoke ["qm"; "create"; Py.str 9002; "--name"; "tmpl-ok"; "--ostype"; "l26";
                 "--tablet"; "0"];
       error_line
         (raised_by ["qm"; "create"; Py.str 9002; "--name"; "tmpl-ok"; "--ostype"; "l26";
                     "--tablet"; "0"]
            (spawn Sample.rejects_repeats
               (invoked (trace (final_state
                  (create_template Sample.rejects_repeats 9002 "tmpl-ok" 0 2046 2 ""
                     "/x.iso" "l26" init_state))))
               ["qm"; "create"; Py.str 9002; "--name"; "tmpl-ok"; "--ostype"; "l26";
                "--tablet"; "0"]))] /\
    pbar s2 = {| total := 7; n := 0 |}.
Proof.
  apply (rerun_stops_at_create Sample.rejects_repeats 9002 "tmpl-ok" 0 2046 2 ""
           "/x.iso" "l26" init_state).
  - intros hist Hin. cbn [spawn Sample.rejects_repeats].
    assert (Hex : existsb
                    (Sample.same_command
                       ["qm"; "create"; Py.str 9002; "--name"; "tmpl-ok"; "--ostype"; "l26";
                        "--tablet"; "0"]) hist = true).
    { apply existsb_exists. eexists. split; [exact Hin|].
      unfold Sample.same_command.
      destruct (list_eq_dec string_dec _ _) as [_|Hne]; [reflexivity|now destruct Hne]. }
    rewrite Hex. reflexivity.
  - reflexivity.
Defined.

(* ================================================================= *)
(** * Further properties of [main] *)

(** ** Paths *)

Lemma mentions_app (c : ascii) (a b : string) :
  mentions c (a ++ b)%string = mentions c a || mentions c b.
Proof.
  induction a as [|x a IH]; [reflexivity|].
  cbn [String.append mentions]. destruct (ascii_dec c x); [reflexivity|exact IH].
Qed.

Lemma basename_from_no_sep (acc p : string) :
  mentions "/" acc = false -> mentions "/" (Py.basename_from acc p) = false.
Proof.
  revert acc. induction p as [|c p IH]; intros acc Hacc; [exact Hacc|].
  cbn [Py.basename_from]. destruct (Ascii.eqb_spec c "/") as [->|Hne].
  - apply IH. reflexivity.
  - apply IH. rewrite mentions_app, Hacc. cbn [mentions orb].
    destruct (ascii_dec "/" c) as [Heq|_]; [now destruct Hne|reflexivity].
Qed.

Lemma basename_no_sep (p : string) : mentions "/" (Py.basename p) = false.
Proof. apply basename_from_no_sep. reflexivity. Qed.

Lemma startswith_sep_mentions (s : string) :
  Py.startswith_sep s = true -> mentions "/" s = true.
Proof.
  destruct s as [|c s]; [discriminate|].
  unfold Py.startswith_sep. cbn [String.prefix mentions].
  destruct (ascii_dec "/" c); [reflexivity|discriminate].
Qed.

Lemma startswith_sep_app (a b : string) :
  Py.startswith_sep a = true -> Py.startswith_sep (a ++ b) = true.
Proof.
  destruct a as [|c a]; [discriminate|].
  unfold Py.startswith_sep. cbn [String.append String.prefix].
  destruct (ascii_dec "/" c); [intros _; now destruct (a ++ b)%string|discriminate].
Qed.

Lemma basename_from_app (acc a b : string) :
  Py.basename_from acc (a ++ b) = Py.basename_from (Py.basename_from acc a) b.
Proof.
  revert acc. induction a as [|c a IH]; intros acc; [reflexivity|].
  cbn [String.append Py.basename_from]. destruct (Ascii.eqb c "/"); apply IH.
Qed.

Lemma basename_from_endswith_sep (acc a : string) :
  Py.endswith_sep a = true -> Py.basename_from acc a = "".
Proof.
  revert acc. induction a as [|c a IH]; intros acc Hend; [discriminate|].
  cbn [Py.basename_from]. destruct a as [|d a].
  - cbn [Py.endswith_sep] in Hend. rewrite Hend. reflexivity.
  - cbn [Py.endswith_sep] in Hend. destruct (Ascii.eqb c "/"); now apply IH.
Qed.

(** The last component of a joined path is that of its second part. *)
Lemma basename_join (a b : string) : Py.basename (Py.join a b) = Py.basename b.
Proof.
  unfold Py.join, Py.basename.
  destruct (Py.startswith_sep b); [reflexivity|].
  destruct a as [|c a]; [reflexivity|]. cbn [Py.truthy_str negb orb].
  destruct (Py.endswith_sep (String c a)) eqn:Hend.
  - rewrite basename_from_app, (basename_from_endswith_sep "" (String c a) Hend).
    reflexivity.
  - rewrite basename_from_app.
    change ("/" ++ b)%string with (String "/" b). reflexivity.
Qed.

Lemma join_iso_dir (b : string) :
  mentions "/" b = false -> Py.join iso_dir b = ("/var/lib/vz/template/iso/" ++ b)%string.
Proof.
  intros Hb. unfold Py.join.
  destruct (Py.startswith_sep b) eqn:Hs.
  - apply startswith_sep_mentions in Hs. congruence.
  - reflexivity.
Qed.

Lemma iso_in_dir_eq (w : World) (args : Namespace) :
  iso_in_dir w args = ("/var/lib/vz/template/iso/" ++ Py.basename (iso args))%string.
Proof.
  unfold iso_in_dir. rewrite join_iso_dir by apply basename_no_sep.
  f_equal. unfold absolute_iso. destruct (Py.isabs (iso args)); [reflexivity|].
  apply basename_join.
Qed.

Lemma isabs_absolute_iso (w : World) (args : Namespace) :
  Py.isabs (getcwd w) = true -> Py.isabs (absolute_iso w args) = true.
Proof.
  intros Hcwd. unfold absolute_iso. destruct (Py.isabs (iso args)) eqn:Habs; [exact Habs|].
  unfold Py.join. unfold Py.isabs in Habs. rewrite Habs.
  destruct (negb (Py.truthy_str (getcwd w)) || Py.endswith_sep (getcwd w));
    now apply startswith_sep_app.
Qed.

(** ** The three checks *)

Lemma invoked_emit_log (lvl : level) (msg : string) (args : list log_arg) (s : state) :
  invoked (trace (emit (EvLog lvl msg args) s)) = invoked (trace s).
Proof. unfold emit. cbn [trace]. rewrite invoked_app. cbn. apply app_nil_r. Qed.

(** Past the checks: [main] hands over to [create_template], having logged
    INFO lines only. *)
Lemma main_validated (w : World) (args : Namespace) (s : state) (iso_file : string) :
  Py.contains " " (name args) = false ->
  (path_exists w (absolute_iso w args) = true /\ iso_file = absolute_iso w args) \/
  (path_exists w (absolute_iso w args) = false /\
   path_exists w (iso_in_dir w args) = true /\ iso_file = iso_in_dir w args) ->
  Py.truthy_str (cinit args) = false \/
  path_exists w (Py.join snippets_dir (cinit args)) = true ->
  exists s1,
    main w args s = create_template_for w args iso_file s1 /\
    invoked (trace s1) = invoked (trace s) /\
    filter is_error (trace s1) = filter is_error (trace s).
Proof.
  intros Hname Hiso Hsnip.
  unfold main, create_template_for, bind, ret, logging_info, logging_error, sys_exit.
  unfold absolute_iso, iso_in_dir, absolute_iso in Hiso.
  rewrite Hname.
  assert (Hsnip' : (if Py.truthy_str (cinit args)
                    then negb (path_exists w (Py.join snippets_dir (cinit args)))
                    else false) = false).
  { destruct Hsnip as [->| ->]; [reflexivity|]. now destruct (Py.truthy_str (cinit args)). }
  destruct (Py.isabs (iso args)); cbn [negb] in *;
    destruct Hiso as [[Hex ->] | (Hex & Hex' & ->)]; rewrite Hex; cbn [negb];
    try rewrite Hex';
    destruct (Py.truthy_str (cinit args));
    try (apply negb_false_iff in Hsnip'; rewrite Hsnip'; cbn [negb]);
    eexists; (split; [reflexivity|]);
    unfold emit; cbn [trace]; rewrite ?invoked_app, ?filter_app; cbn;
    rewrite ?app_nil_r; split; reflexivity.
Qed.

(** A check that fails: [main] exits, with nothing invoked and its error
    record last. *)
Lemma main_rejected (w : World) (args : Namespace) (s : state) :
  Py.contains " " (name args) = true \/
  (path_exists w (absolute_iso w args) = false /\ path_exists w (iso_in_dir w args) = false) \/
  (Py.truthy_str (cinit args) = true /\
   path_exists w (Py.join snippets_dir (cinit args)) = false) ->
  exists code s' msg,
    main w args s = Exited code s' /\
    (code = 0 \/ code = 1) /\
    (code = 0 <-> Py.contains " " (name args) = true) /\
    invoked (trace s') = invoked (trace s) /\
    last (trace s') (EvUpdate 0) = EvLog ERROR msg [].
Proof.
  intros Hbad.
  destruct (Py.contains " " (name args)) eqn:Hname.
  - do 3 eexists. rewrite main_name_with_space by exact Hname.
    split; [reflexivity|]. split; [now left|]. split; [tauto|].
    split; [apply invoked_emit_log|]. unfold emit. cbn [trace]. apply last_last.
  - destruct Hbad as [Hbad|Hbad]; [discriminate|].
    unfold main, bind, ret, logging_info, logging_error, sys_exit.
    unfold absolute_iso, iso_in_dir, absolute_iso in Hbad.
    rewrite Hname.
    assert (Hcode : 1 = 0 \/ 1 = 1) by now right.
    assert (Hiff : 1 = 0 <-> false = true) by (split; discriminate).
    destruct (Py.isabs (iso args)); cbn [negb] in *;
      (destruct (path_exists w _) eqn:Hex at 1; cbn [negb];
       [| destruct (path_exists w (Py.join iso_dir _)) eqn:Hex' at 1 ]).
    all: try (destruct Hbad as [[Hb _]|[Hc Hs]]; [congruence|]; rewrite Hc, Hs; cbn [negb]).
    all: try (destruct Hbad as [[_ Hb]|[Hc Hs]]; [congruence|]; rewrite Hc, Hs; cbn [negb]).
    all: do 3 eexists; (split; [reflexivity|]); (split; [exact Hcode|]);
      (split; [exact Hiff|]);
      unfold emit; cbn [trace]; rewrite ?invoked_app; cbn [invoked flat_map app];
      rewrite ?app_nil_r; (split; [reflexivity|]);
      rewrite ?app_assoc; apply last_last.
Qed.

(** The checks leave no third way. *)
Lemma main_checks (w : World) (args : Namespace) :
  (Py.contains " " (name args) = true \/
   (path_exists w (absolute_iso w args) = false /\
    path_exists w (iso_in_dir w args) = false) \/
   (Py.truthy_str (cinit args) = true /\
    path_exists w (Py.join snippets_dir (cinit args)) = false))
  \/
  (Py.contains " " (name args) = false /\
   (exists iso_file,
      (path_exists w (absolute_iso w args) = true /\ iso_file = absolute_iso w args) \/
      (path_exists w (absolute_iso w args) = false /\
       path_exists w (iso_in_dir w args) = true /\ iso_file = iso_in_dir w args)) /\
   (Py.truthy_str (cinit args) = false \/
    path_exists w (Py.join snippets_dir (cinit args)) = true)).
Proof.
  destruct (Py.contains " " (name args)); [now left; left|].
  destruct (Py.truthy_str (cinit args)) eqn:Hc;
    [destruct (path_exists w (Py.join snippets_dir (cinit args))) eqn:Hs;
     [|left; right; right; now split]|];
    (destruct (path_exists w (absolute_iso w args)) eqn:Hex;
     [right; split; [reflexivity|]; split; [eexists; left; split; reflexivity|auto]|]);
    (destruct (path_exists w (iso_in_dir w args)) eqn:Hex';
     [right; split; [reflexivity|]; split; [eexists; right; repeat split; reflexivity|auto]
     |left; right; left; now split]).
Qed.

(** X9.  A step that fails does not change how [main] ends.  With arguments
    that pass the checks (here: an absolute ISO path that exists, a snippet
    that exists if one is named) and a command that ends abnormally, [main]
    still returns normally, so the process ends with status 0; the failure
    shows only as the error record that closes the log and as a bar short of
    7. *)
Theorem failed_step_leaves_exit_status_unchanged
    (w : World) (args : Namespace) (s : state) :
  Py.contains " " (name args) = false ->
  Py.isabs (iso args) = true ->
  path_exists w (iso args) = true ->
  Py.truthy_str (cinit args) = false \/
  path_exists w (Py.join snippets_dir (cinit args)) = true ->
  all_succeed w (invoked (trace s))
    (commands (steps (vmid args) (name args) (vlan args) (memory args) (cores args)
                 (cinit args) (iso args) (ostype args))) = false ->
  exists s',
    main w args s = Normal tt s' /\
    is_error (last (trace s') (EvUpdate 0)) = true /\
    total (pbar s') = 7%nat /\
    (n (pbar s') < 7)%nat.
Proof.
  intros Hname Habs Hex Hsnip Hfail.
  assert (Hiso : absolute_iso w args = iso args) by (unfold absolute_iso; now rewrite Habs).
  destruct (main_validated w args s (iso args) Hname) as (s1 & -> & Hinv & _);
    [left; rewrite Hiso; auto|exact Hsnip|].
  unfold create_template_for, create_template.
  rewrite <- Hinv in Hfail.
  destruct (run_cases w (vmid args)
              (steps (vmid args) (name args) (vlan args) (memory args) (cores args)
                 (cinit args) (iso args) (ostype args)) s1)
    as [[Hall _] | (k & desc & cmd & _ & Hk & _ & _ & _ & _ & _ & Hrun)];
    [congruence|].
  eexists. split; [exact Hrun|]. unfold after. cbn [trace pbar total n].
  split; [|split; [reflexivity|exact Hk]].
  match goal with
  | |- is_error (last (?t ++ ?l ++ [?a; ?b; ?c]) _) = _ =>
      change (t ++ l ++ [a; b; c]) with (t ++ l ++ [a; b] ++ [c])
  end.
  rewrite !app_assoc, last_last. reflexivity.
Qed.

Lemma failed_step_leaves_exit_status_unchanged_witness :
  exists s',
    main Sample.stray_snippet Sample.args_ok init_state = Normal tt s' /\
    is_error (last (trace s') (EvUpdate 0)) = true /\
    total (pbar s') = 7%nat /\
    (n (pbar s') < 7)%nat.
Proof.
  apply (failed_step_leaves_exit_status_unchanged Sample.stray_snippet Sample.args_ok
           init_state).
  - reflexivity.
  - reflexivity.
  - reflexivity.
  - left. reflexivity.
  - reflexivity.
Defined.

(** X11.  When the ISO is not found at the path given (made absolute), the
    only other place looked at is the ISO directory joined with the last
    component of the [--iso] argument: leading directories of the argument
    and the working directory play no part.  If the file is there, that path
    is the one handed to [create_template]. *)
Theorem iso_fallback_uses_last_component
    (w : World) (args : Namespace) (s : state) :
  Py.contains " " (name args) = false ->
  path_exists w (absolute_iso w args) = false ->
  path_exists w ("/var/lib/vz/template/iso/" ++ Py.basename (iso args))%string = true ->
  Py.truthy_str (cinit args) = false \/
  path_exists w (Py.join snippets_dir (cinit args)) = true ->
  mentions "/" (Py.basename (iso args)) = false /\
  exists s1,
    main w args s =
      create_template_for w args
        ("/var/lib/vz/template/iso/" ++ Py.basename (iso args))%string s1 /\
    invoked (trace s1) = invoked (trace s).
Proof.
  intros Hname Hex Hdir Hsnip. split; [apply basename_no_sep|].
  rewrite <- (iso_in_dir_eq w args) in Hdir |- *.
  destruct (main_validated w args s (iso_in_dir w args) Hname) as (s1 & Hmain & Hinv & _);
    [right; auto|exact Hsnip|].
  exists s1. split; [exact Hmain|exact Hinv].
Qed.

Lemma iso_fallback_uses_last_component_witness :
  mentions "/" (Py.basename (iso Sample.args_relative_iso)) = false /\
  exists s1,
    main Sample.iso_in_store Sample.args_relative_iso init_state =
      create_template_for Sample.iso_in_store Sample.args_relative_iso
        ("/var/lib/vz/template/iso/" ++ Py.basename (iso Sample.args_relative_iso))%string s1 /\
    invoked (trace s1) = invoked (trace init_state).
Proof.
  apply (iso_fallback_uses_last_component Sample.iso_in_store Sample.args_relative_iso
           init_state).
  - reflexivity.
  - reflexivity.
  - reflexivity.
  - left. reflexivity.
Defined.

(** X12.  A snippet name that starts with a slash is checked at that absolute
    path, not under the snippets directory: if the file exists there, [main]
    goes on, and the sixth command still asks for
    [user=local:snippets/<name>], whether or not such a snippet exists. *)
Theorem absolute_snippet_name_bypasses_snippets_dir
    (w : World) (args : Namespace) (s : state) :
  Py.contains " " (name args) = false ->
  Py.isabs (iso args) = true ->
  path_exists w (iso args) = true ->
  Py.startswith_sep (cinit args) = true ->
  path_exists w (cinit args) = true ->
  Py.join snippets_dir (cinit args) = cinit args /\
  (exists s1,
     main w args s = create_template_for w args (iso args) s1 /\
     invoked (trace s1) = invoked (trace s)) /\
  nth_error (steps (vmid args) (name args) (vlan args) (memory args) (cores args)
               (cinit args) (iso args) (ostype args)) 5
  = Some ("Setting Cloud-Init Customization",
          ["qm"; "set"; Py.str (vmid args); "--cicustom";
           ("user=local:snippets/" ++ cinit args)%string]).
Proof.
  intros Hname Habs Hex Hstart Hsnip.
  assert (Hjoin : Py.join snippets_dir (cinit args) = cinit args)
    by (unfold Py.join; now rewrite Hstart).
  split; [exact Hjoin|]. split.
  - assert (Hiso : absolute_iso w args = iso args)
      by (unfold absolute_iso; now rewrite Habs).
    destruct (main_validated w args s (iso args) Hname) as (s1 & Hmain & Hinv & _);
      [left; rewrite Hiso; auto|right; now rewrite Hjoin|].
    exists s1. split; [exact Hmain|exact Hinv].
  - destruct (cinit args); [discriminate Hstart|reflexivity].
Qed.

Lemma absolute_snippet_name_bypasses_snippets_dir_witness :
  Py.join snippets_dir (cinit Sample.args_stray_snippet) = cinit Sample.args_stray_snippet /\
  (exists s1,
     main Sample.stray_snippet Sample.args_stray_snippet init_state
       = create_template_for Sample.stray_snippet Sample.args_stray_snippet
           (iso Sample.args_stray_snippet) s1 /\
     invoked (trace s1) = invoked (trace init_state)) /\
  nth_error (steps (vmid Sample.args_stray_snippet) (name Sample.args_stray_snippet)
               (vlan Sample.args_stray_snippet) (memory Sample.args_stray_snippet)
               (cores Sample.args_stray_snippet) (cinit Sample.args_stray_snippet)
               (iso Sample.args_stray_snippet) (ostype Sample.args_stray_snippet)) 5
  = Some ("Setting Cloud-Init Customization",
          ["qm"; "set"; Py.str (vmid Sample.args_stray_snippet); "--cicustom";
           ("user=local:snippets/" ++ cinit Sample.args_stray_snippet)%string]).
Proof.
  apply (absolute_snippet_name_bypasses_snippets_dir Sample.stray_snippet
           Sample.args_stray_snippet init_state).
  - reflexivity.
  - reflexivity.
  - reflexivity.
  - reflexivity.
  - reflexivity.
Defined.

(** X13.  An [--iso] argument that ends with a slash has an empty last
    component, so when nothing exists at the path given the place looked at
    is the ISO directory itself; since the directory exists, the check passes
    and the directory is handed to [create_template] as the ISO file. *)
Theorem iso_with_trailing_slash_resolves_to_iso_dir
    (w : World) (args : Namespace) (s : state) :
  Py.contains " " (name args) = false ->
  Py.endswith_sep (iso args) = true ->
  path_exists w (absolute_iso w args) = false ->
  path_exists w "/var/lib/vz/template/iso/" = true ->
  Py.truthy_str (cinit args) = false \/
  path_exists w (Py.join snippets_dir (cinit args)) = true ->
  exists s1,
    main w args s = create_template_for w args "/var/lib/vz/template/iso/" s1 /\
    invoked (trace s1) = invoked (trace s).
Proof.
  intros Hname Hend Hex Hdir Hsnip.
  assert (Hcand : iso_in_dir w args = "/var/lib/vz/template/iso/").
  { rewrite iso_in_dir_eq. unfold Py.basename.
    rewrite basename_from_endswith_sep by exact Hend. reflexivity. }
  destruct (main_validated w args s (iso_in_dir w args) Hname) as (s1 & Hmain & Hinv & _);
    [right; rewrite Hcand; auto|exact Hsnip|].
  rewrite Hcand in Hmain. exists s1. split; [exact Hmain|exact Hinv].
Qed.

Lemma iso_with_trailing_slash_resolves_to_iso_dir_witness :
  exists s1,
    main Sample.store_only Sample.args_trailing_slash init_state
      = create_template_for Sample.store_only Sample.args_trailing_slash
          "/var/lib/vz/template/iso/" s1 /\
    invoked (trace s1) = invoked (trace init_state).
Proof.
  apply (iso_with_trailing_slash_resolves_to_iso_dir Sample.store_only
           Sample.args_trailing_slash init_state).
  - reflexivity.
  - reflexivity.
  - reflexivity.
  - reflexivity.
  - left. reflexivity.
Defined.

Lemma nodup_firstn {A : Type} (k : nat) (l : list A) : NoDup l -> NoDup (firstn k l).
Proof.
  revert k. induction l as [|x l IH]; intros [|k] Hnd; cbn; try constructor.
  - intros Hin. apply in_firstn in Hin. now inversion Hnd.
  - apply IH. now inversion Hnd.
Qed.

(** X14.  No command is handed to [check_call] twice in one run of
    [create_template]: the commands of the table differ from one another,
    whatever the arguments. *)
Theorem no_command_is_invoked_twice
    (w : World) (vm_id : Z) (vm_name : string) (vm_vlan mem cores : Z)
    (cinit iso_file ostype : string) (s : state) :
  NoDup (commands (steps vm_id vm_name vm_vlan mem cores cinit iso_file ostype)) /\
  exists (new : list event) (s' : state),
    create_template w vm_id vm_name vm_vlan mem cores cinit iso_file ostype s
      = Normal tt s' /\
    trace s' = trace s ++ new /\
    NoDup (invoked new).
Proof.
  set (st := steps vm_id vm_name vm_vlan mem cores cinit iso_file ostype).
  assert (Hall7 : NoDup (commands st)).
  { subst st.
    destruct cinit;
      cbn [steps commands map filter snd Py.truthy_list Py.truthy_str];
      repeat (constructor;
              [cbn [In]; intros Hin;
               repeat (destruct Hin as [Heq|Hin]; [discriminate Heq|]);
               contradiction|]);
      constructor. }
  assert (Hnd : forall k, NoDup (firstn k (commands st)))
    by (intros k; now apply nodup_firstn).
  split; [rewrite <- (firstn_all (commands st)); apply Hnd|].
  unfold create_template. fold st.
  destruct (run_cases w vm_id st s)
    as [[Hall Hrun] | (k & desc & cmd & _ & _ & Hsplit & _ & _ & Hcmd & _ & Hrun)];
    eexists _, _; (split; [exact Hrun|]); unfold after; cbn [trace];
    (split; [reflexivity|]); rewrite invoked_app, invoked_step_events.
  - cbn [invoked flat_map success_line]. rewrite app_nil_r.
    rewrite <- (firstn_all (commands st)). apply Hnd.
  - cbn [invoked flat_map announce error_line app].
    assert (Hc : commands st =
                 commands (firstn k st) ++ cmd :: commands (skipn (S k) st)).
    { transitivity (commands (firstn k st ++ (desc, cmd) :: skipn (S k) st));
        [now rewrite <- Hsplit|].
      rewrite commands_app. f_equal. unfold commands. cbn [map filter snd].
      now rewrite Hcmd. }
    rewrite <- (firstn_succ_length_app (commands (firstn k st))
                  (commands (skipn (S k) st)) cmd).
    rewrite <- Hc. apply Hnd.
Qed.

(* ================================================================= *)
(** * The calls outside the [try] *)

(** ** Building the table *)

(** The table is the one of [steps] when every integer converted passes the
    limit; otherwise the first conversion that fails raises, with the state
    untouched. *)
Lemma checked_steps_eq (vm_id : Z) (vm_name : string) (vm_vlan mem cores : Z)
    (cinit iso_file ostype : string) (s : state) :
  Checked.steps vm_id vm_name vm_vlan mem cores cinit iso_file ostype s =
  if Checked.within_limit vm_id vm_vlan mem cores
  then Normal (steps vm_id vm_name vm_vlan mem cores cinit iso_file ostype) s
  else Raised Checked.int_str_error s.
Proof.
  unfold Checked.steps, Checked.within_limit, steps, bind, ret, Checked.str.
  destruct (Checked.too_long vm_id); [reflexivity|].
  destruct (Py.truthy_int vm_vlan); cbn [negb andb orb].
  - destruct (Checked.too_long vm_vlan); [reflexivity|]. cbn [negb andb orb].
    destruct (Checked.too_long mem); [reflexivity|].
    destruct (Checked.too_long cores); [reflexivity|].
    destruct (Py.truthy_str cinit); reflexivity.
  - destruct (Checked.too_long mem); [reflexivity|].
    destruct (Checked.too_long cores); [reflexivity|].
    destruct (Py.truthy_str cinit); reflexivity.
Qed.

Lemma checked_create_template_eq (w : World) (vm_id : Z) (vm_name : string)
    (vm_vlan mem cores : Z) (cinit iso_file ostype : string) (s : state) :
  Checked.create_template w vm_id vm_name vm_vlan mem cores cinit iso_file ostype s =
  if Checked.within_limit vm_id vm_vlan mem cores
  then create_template w vm_id vm_name vm_vlan mem cores cinit iso_file ostype s
  else Raised Checked.int_str_error s.
Proof.
  unfold Checked.create_template, bind. rewrite checked_steps_eq.
  destruct (Checked.within_limit vm_id vm_vlan mem cores); reflexivity.
Qed.

(** C7, as the code has it.  When the integers the table needs ([vm_id],
    [mem], [cores], and [vm_vlan] if it is not 0) have at most 4300 decimal
    digits, the function returns to its caller whatever the commands do: no
    exception leaves it and it does not exit the process. *)
Theorem create_template_returns_normally_within_limit
    (w : World) (vm_id : Z) (vm_name : string) (vm_vlan mem cores : Z)
    (cinit iso_file ostype : string) (s : state) :
  Checked.within_limit vm_id vm_vlan mem cores = true ->
  exists s' : state,
    Checked.create_template w vm_id vm_name vm_vlan mem cores cinit iso_file ostype s
      = Normal tt s'.
Proof.
  intros Hlim. rewrite checked_create_template_eq, Hlim. unfold create_template.
  destruct (create_template_body_total w vm_id
              (steps vm_id vm_name vm_vlan mem cores cinit iso_file ostype) s)
    as (s' & Hrun & _).
  exists s'. exact Hrun.
Qed.

Lemma create_template_returns_normally_within_limit_witness :
  exists s' : state,
    Checked.create_template Sample.bad_iso 9001 "tmpl-test" 0 2046 2 "" "/nonexistent.iso"
      "l26" init_state = Normal tt s'.
Proof.
  apply (create_template_returns_normally_within_limit Sample.bad_iso 9001 "tmpl-test"
           0 2046 2 "" "/nonexistent.iso" "l26" init_state).
  reflexivity.
Defined.

(** C7 as stated fails: [10 ^ 4300] has 4301 digits, [str(vm_id)] on line 40
    raises [ValueError] before the [try] is entered, and the exception leaves
    [create_template] with nothing logged and nothing invoked. *)
Lemma huge_vm_id_raises_before_the_try :
  Checked.decimal_digits (10 ^ 4300) = 4301%nat /\
  Checked.create_template Sample.healthy (10 ^ 4300) "tmpl-ok" 0 2046 2 "" "/x.iso" "l26"
    init_state
  = Raised (RaiseOther ValueError
              "Exceeds the limit (4300 digits) for integer string conversion; use sys.set_int_max_str_digits() to increase the limit")
      init_state.
Proof.
  assert (Hd : Checked.decimal_digits (10 ^ 4300) = 4301%nat) by (vm_compute; reflexivity).
  split; [exact Hd|].
  rewrite checked_create_template_eq.
  unfold Checked.within_limit, Checked.too_long. rewrite Hd. reflexivity.
Qed.

(** ** [main] with a working directory that may be gone *)

Lemma checked_main_name_with_space (p : Checked.Process) (args : Namespace) (s : state) :
  Py.contains " " (name args) = true ->
  Checked.main p args s =
  Exited 0 (emit (EvLog ERROR "VM name contains spaces. Please use a name without spaces." [])
              s).
Proof. intros Hsp. unfold Checked.main, bind at 1. rewrite Hsp. reflexivity. Qed.

Lemma checked_main_getcwd_raises (p : Checked.Process) (args : Namespace) (s : state) :
  Py.contains " " (name args) = false ->
  Py.isabs (iso args) = false ->
  Checked.cwd_gone p = true ->
  Checked.main p args s = Raised Checked.getcwd_error s.
Proof.
  intros Hname Habs Hgone. unfold Checked.main, bind, ret, Checked.os_getcwd.
  rewrite Hname, Habs, Hgone. reflexivity.
Qed.

(** When the working directory is there, or is not asked for, the checks of
    [Checked.main] are those of [main]. *)
Lemma checked_main_rejected (p : Checked.Process) (args : Namespace) (s : state) :
  Py.contains " " (name args) = false ->
  Py.isabs (iso args) = true \/ Checked.cwd_gone p = false ->
  (path_exists (Checked.world p) (absolute_iso (Checked.world p) args) = false /\
   path_exists (Checked.world p) (iso_in_dir (Checked.world p) args) = false) \/
  (Py.truthy_str (cinit args) = true /\
   path_exists (Checked.world p) (Py.join snippets_dir (cinit args)) = false) ->
  Checked.main p args s = main (Checked.world p) args s.
Proof.
  intros Hname Hcwd Hbad.
  unfold Checked.main, main, bind, ret, logging_info, logging_error, sys_exit,
    Checked.os_getcwd.
  unfold absolute_iso, iso_in_dir, absolute_iso in Hbad.
  rewrite Hname.
  destruct (Py.isabs (iso args)); cbn [negb] in *;
    [|destruct Hcwd as [Hcwd|Hcwd]; [discriminate Hcwd|rewrite Hcwd]];
    (destruct (path_exists (Checked.world p) _) eqn:Hex; cbn [negb];
     [| destruct (path_exists (Checked.world p) (Py.join iso_dir _)) eqn:Hex' ]).
  all: try (destruct Hbad as [[Hb _]|[Hc Hs]]; [congruence|]; rewrite Hc, Hs; cbn [negb]).
  all: try (destruct Hbad as [[_ Hb]|[Hc Hs]]; [congruence|]; rewrite Hc, Hs; cbn [negb]).
  all: reflexivity.
Qed.

Lemma checked_main_validated (p : Checked.Process) (args : Namespace) (s : state)
    (iso_file : string) :
  Py.contains " " (name args) = false ->
  Py.isabs (iso args) = true \/ Checked.cwd_gone p = false ->
  (path_exists (Checked.world p) (absolute_iso (Checked.world p) args) = true /\
   iso_file = absolute_iso (Checked.world p) args) \/
  (path_exists (Checked.world p) (absolute_iso (Checked.world p) args) = false /\
   path_exists (Checked.world p) (iso_in_dir (Checked.world p) args) = true /\
   iso_file = iso_in_dir (Checked.world p) args) ->
  Py.truthy_str (cinit args) = false \/
  path_exists (Checked.world p) (Py.join snippets_dir (cinit args)) = true ->
  exists s1,
    Checked.main p args s = Checked.create_template_for p args iso_file s1 /\
    invoked (trace s1) = invoked (trace s) /\
    filter is_error (trace s1) = filter is_error (trace s).
Proof.
  intros Hname Hcwd Hiso Hsnip.
  unfold Checked.main, bind, ret, logging_info, logging_error, sys_exit, Checked.os_getcwd.
  unfold absolute_iso, iso_in_dir, absolute_iso in Hiso.
  rewrite Hname.
  assert (Hsnip' : (if Py.truthy_str (cinit args)
                    then negb (path_exists (Checked.world p)
                                 (Py.join snippets_dir (cinit args)))
                    else false) = false).
  { destruct Hsnip as [->| ->]; [reflexivity|]. now destruct (Py.truthy_str (cinit args)). }
  destruct (Py.isabs (iso args)); cbn [negb] in *;
    [|destruct Hcwd as [Hcwd|Hcwd]; [discriminate Hcwd|rewrite Hcwd]];
    destruct Hiso as [[Hex ->] | (Hex & Hex' & ->)]; rewrite Hex; cbn [negb];
    try rewrite Hex';
    destruct (Py.truthy_str (cinit args));
    try (apply negb_false_iff in Hsnip'; rewrite Hsnip'; cbn [negb]);
    eexists; (split; [reflexivity|]);
    unfold emit; cbn [trace]; rewrite ?invoked_app, ?filter_app; cbn;
    rewrite ?app_nil_r; split; reflexivity.
Qed.

(** X8.  [main] ends in one of three ways.  It returns normally; or it exits
    with status 0 or 1, status 0 being that of the name check and status 1
    that of the ISO and snippet checks, with the error record of the check
    logged last; or an exception leaves it, which is either the
    [FileNotFoundError] of [os.getcwd()], for a relative [--iso] when the
    working directory has been removed, or the [ValueError] of an integer
    above the conversion limit.  Whenever it exits or raises, no command has
    been invoked. *)
Theorem main_ends_in_one_of_three_ways
    (p : Checked.Process) (args : Namespace) (s : state) :
  (exists s', Checked.main p args s = Normal tt s') \/
  (exists code s' msg,
     Checked.main p args s = Exited code s' /\
     (code = 0 \/ code = 1) /\
     (code = 0 <-> Py.contains " " (name args) = true) /\
     invoked (trace s') = invoked (trace s) /\
     last (trace s') (EvUpdate 0) = EvLog ERROR msg []) \/
  (exists e s',
     Checked.main p args s = Raised e s' /\
     invoked (trace s') = invoked (trace s) /\
     ((e = Checked.getcwd_error /\
       Py.contains " " (name args) = false /\
       Py.isabs (iso args) = false /\ Checked.cwd_gone p = true) \/
      (e = Checked.int_str_error /\
       Checked.within_limit (vmid args) (vlan args) (memory args) (cores args) = false))).
Proof.
  destruct (Py.contains " " (name args)) eqn:Hname.
  { right. left. do 3 eexists. rewrite checked_main_name_with_space by exact Hname.
    split; [reflexivity|]. split; [now left|]. split; [tauto|].
    split; [apply invoked_emit_log|]. unfold emit. cbn [trace]. apply last_last. }
  assert (Hcwd : (Py.isabs (iso args) = false /\ Checked.cwd_gone p = true) \/
                 (Py.isabs (iso args) = true \/ Checked.cwd_gone p = false)).
  { destruct (Py.isabs (iso args)); [right; now left|].
    destruct (Checked.cwd_gone p); [left; now split|right; now right]. }
  destruct Hcwd as [[Habs Hgone] | Hcwd].
  { right. right. exists Checked.getcwd_error, s.
    split; [now apply checked_main_getcwd_raises|]. split; [reflexivity|]. left. auto. }
  destruct (main_checks (Checked.world p) args)
    as [[Hsp | Hbad] | (_ & [iso_file Hiso] & Hsnip)]; [congruence| |].
  - right. left.
    rewrite (checked_main_rejected p args s Hname Hcwd Hbad).
    destruct (main_rejected (Checked.world p) args s (or_intror Hbad))
      as (code & s' & msg & Hexit & Hcode & Hiff & Hinv & Hlast).
    exists code, s', msg. split; [exact Hexit|]. split; [exact Hcode|].
    rewrite Hname in Hiff. split; [exact Hiff|]. split; [exact Hinv|exact Hlast].
  - destruct (checked_main_validated p args s iso_file Hname Hcwd Hiso Hsnip)
      as (s1 & Hmain & Hinv & _).
    rewrite Hmain. unfold Checked.create_template_for.
    rewrite checked_create_template_eq.
    destruct (Checked.within_limit (vmid args) (vlan args) (memory args) (cores args)).
    + left. unfold create_template.
      destruct (create_template_body_total (Checked.world p) (vmid args)
                  (steps (vmid args) (name args) (vlan args) (memory args) (cores args)
                     (cinit args) iso_file (ostype args)) s1) as (s' & Hrun & _).
      exists s'. exact Hrun.
    + right. right. exists Checked.int_str_error, s1.
      split; [reflexivity|]. split; [exact Hinv|]. right. auto.
Qed.

(** X10.  Whenever [main] does not leave at one of its checks, and the
    working directory is there or the ISO path is absolute so that it is not
    asked for, [main] calls [create_template] with the parsed arguments and
    an ISO path that exists; that path is absolute provided the working
    directory is; the name has no space, and a snippet that is named exists
    where the check looks for it.  Nothing has been invoked before the
    call. *)
Theorem main_calls_create_template_with_checked_arguments
    (p : Checked.Process) (args : Namespace) (s : state) :
  (forall code s', Checked.main p args s <> Exited code s') ->
  Py.isabs (iso args) = true \/ Checked.cwd_gone p = false ->
  exists iso_file s1,
    Checked.main p args s = Checked.create_template_for p args iso_file s1 /\
    path_exists (Checked.world p) iso_file = true /\
    (Py.isabs (getcwd (Checked.world p)) = true -> Py.isabs iso_file = true) /\
    Py.contains " " (name args) = false /\
    (Py.truthy_str (cinit args) = true ->
     path_exists (Checked.world p) (Py.join snippets_dir (cinit args)) = true) /\
    invoked (trace s1) = invoked (trace s).
Proof.
  intros Hrun Hcwd.
  destruct (Py.contains " " (name args)) eqn:Hname.
  { exfalso. eapply Hrun. now apply checked_main_name_with_space. }
  destruct (main_checks (Checked.world p) args)
    as [[Hsp | Hbad] | (_ & [iso_file Hiso] & Hsnip)]; [congruence| |].
  - exfalso.
    destruct (main_rejected (Checked.world p) args s (or_intror Hbad))
      as (code & s' & msg & Hexit & _).
    apply (Hrun code s'). now rewrite (checked_main_rejected p args s Hname Hcwd Hbad).
  - destruct (checked_main_validated p args s iso_file Hname Hcwd Hiso Hsnip)
      as (s1 & Hmain & Hinv & _).
    exists iso_file, s1. split; [exact Hmain|].
    split; [destruct Hiso as [[Hex ->] | (_ & Hex & ->)]; exact Hex|].
    split.
    { intros Habs. destruct Hiso as [[_ ->] | (_ & _ & ->)].
      - now apply isabs_absolute_iso.
      - rewrite iso_in_dir_eq. reflexivity. }
    split; [reflexivity|]. split; [|exact Hinv].
    intros Hc. destruct Hsnip as [Hno|Hyes]; [congruence|exact Hyes].
Qed.

Lemma main_calls_create_template_with_checked_arguments_witness :
  exists iso_file s1,
    Checked.main Checked.removed_cwd Sample.args_ok init_state
      = Checked.create_template_for Checked.removed_cwd Sample.args_ok iso_file s1 /\
    path_exists (Checked.world Checked.removed_cwd) iso_file = true /\
    (Py.isabs (getcwd (Checked.world Checked.removed_cwd)) = true ->
     Py.isabs iso_file = true) /\
    Py.contains " " (name Sample.args_ok) = false /\
    (Py.truthy_str (cinit Sample.args_ok) = true ->
     path_exists (Checked.world Checked.removed_cwd)
       (Py.join snippets_dir (cinit Sample.args_ok)) = true) /\
    invoked (trace s1) = invoked (trace init_state).
Proof.
  apply (main_calls_create_template_with_checked_arguments Checked.removed_cwd
           Sample.args_ok init_state).
  - intros code s' Hexit. vm_compute in Hexit. discriminate Hexit.
  - left. reflexivity.
Defined.

(** An exception leaving [main] on the healthy host: a relative [--iso] given
    from a working directory that has been removed. *)
Example relative_iso_in_removed_cwd_raises :
  Checked.main Checked.removed_cwd Sample.args_relative_iso init_state
  = Raised (RaiseOther FileNotFoundError "[Errno 2] No such file or directory") init_state.
Proof. reflexivity. Qed.
